(** * Result aggregation and process running in tools/utils.py

    A shallow embedding of the parts of [tools/utils.py] that merge
    benchmark results into the rolling report ([update_perf_csv] and its
    helpers) and of the exit-code handling of [Console.sh].

    Python values are embedded as data, exceptions as an explicit outcome,
    the file system as a finite map from paths to file contents.  The
    libraries the code leans on are treated as follows.
    - pandas: a [DataFrame] is a list of column labels and a list of rows
      of Python scalars.  Column dtypes are not modelled, so the numeric
      upcasting pandas performs inside a column is not either; what the
      development states about cells concerns strings and missing values.
      The labels of a frame that is reindexed are taken to be unique, as
      the keys of a dict are.
    - decoding of file contents ([pd.read_csv], [json.load]) and the
      quoting done by the csv writer are left open: the code is
      parameterised by them (class [Decoders]).
    - JSON records are flat: a value is a scalar or a list of scalars.
    - logging is left out: no logging call of the code can raise. *)

From Stdlib Require Import ZArith String Ascii List Bool Lia DecimalString.
From stdpp Require Import base option list strings gmap sorting.
Import ListNotations.

Local Open Scope string_scope.
Local Open Scope list_scope.

(** ** Python values *)

(** A scalar as it sits in a DataFrame cell or in a decoded JSON document.
    A float other than NaN is carried by its [repr]: the code never
    computes with one, it only prints it and asks whether it is NaN. *)
Inductive scalar : Type :=
| SNone
| SNaN
| SBool (b : bool)
| SInt (z : Z)
| SFloat (repr : string)
| SStr (s : string).

(** A value of a flat JSON record: a scalar, or a list of scalars (the
    shape of a [tags] list).  Records with nested objects or nested lists
    are outside the embedding. *)
Inductive jvalue : Type :=
| JAtom (a : scalar)
| JList (items : list scalar).

(** The exceptions the modelled code can raise. *)
Inductive exn : Type :=
| RuntimeError (msg : string)
| KeyError (keys : list string)
| ValueError
| TypeError
| FileNotFoundError (path : string)
| DecodeError (path : string).

Inductive outcome (A : Type) : Type :=
| Ok (a : A)
| Raise (e : exn).
Arguments Ok {A} a.
Arguments Raise {A} e.

Definition obind {A B} (m : outcome A) (k : A -> outcome B) : outcome B :=
  match m with
  | Ok a => k a
  | Raise e => Raise e
  end.

Notation "'try' x <- m 'in' k" := (obind m (fun x => k))
  (at level 10, x name, m at level 100, k at level 200).

(** [str(z)] for an int. *)
Definition str_of_Z (z : Z) : string := NilZero.string_of_int (Z.to_int z).

(** [str(x)] for a scalar. *)
Definition py_str (x : scalar) : string :=
  match x with
  | SNone => "None"
  | SNaN => "nan"
  | SBool true => "True"
  | SBool false => "False"
  | SInt z => str_of_Z z
  | SFloat repr => repr
  | SStr s => s
  end.

(** [pd.notna(x)] on a scalar. *)
Definition notna (x : scalar) : bool :=
  match x with
  | SNone | SNaN => false
  | _ => true
  end.

(** [x is not None]. *)
Definition is_not_None (x : scalar) : bool :=
  match x with
  | SNone => false
  | _ => true
  end.

(** ** Strings *)

(** [c.isspace()] for a character below U+0100. *)
Definition is_space (c : ascii) : bool :=
  let n := nat_of_ascii c in
  (((9 <=? n) && (n <=? 13)) || ((28 <=? n) && (n <=? 32))
   || (n =? 133) || (n =? 160))%nat.

Fixpoint lstrip (s : string) : string :=
  match s with
  | EmptyString => EmptyString
  | String c s' => if is_space c then lstrip s' else s
  end.

Fixpoint rstrip (s : string) : string :=
  match s with
  | EmptyString => EmptyString
  | String c s' =>
      match rstrip s' with
      | EmptyString => if is_space c then EmptyString else String c EmptyString
      | t => String c t
      end
  end.

(** [s.strip()]. *)
Definition strip (s : string) : string := rstrip (lstrip s).

(** [sep.join(l)]. *)
Definition join (sep : string) (l : list string) : string := String.concat sep l.

(** [k in l] for a list of strings. *)
Definition mem (k : string) (l : list string) : bool := existsb (String.eqb k) l.

(** [sub in s] for strings. *)
Fixpoint contains (sub s : string) : bool :=
  String.prefix sub s ||
  match s with
  | EmptyString => false
  | String _ s' => contains sub s'
  end.

(** ** Python dicts

    Insertion order decides the column order of a frame built from a
    dict, so a dict is an association list. *)
Definition dict : Type := list (string * jvalue).

Definition keys (d : dict) : list string := map fst d.

(** [d[k]], [None] standing for the KeyError. *)
Fixpoint dict_get (k : string) (d : dict) : option jvalue :=
  match d with
  | [] => None
  | (k', v) :: d' => if String.eqb k k' then Some v else dict_get k d'
  end.

(** [d[k] = v]: an existing key keeps its place, a new one goes last. *)
Fixpoint dict_set (k : string) (v : jvalue) (d : dict) : dict :=
  match d with
  | [] => [(k, v)]
  | (k', v') :: d' =>
      if String.eqb k k' then (k', v) :: d' else (k', v') :: dict_set k v d'
  end.

(** The dict the JSON decoder builds from the members of an object, in
    textual order: a repeated key keeps its first place and its last
    value. *)
Definition dict_of_pairs (l : list (string * jvalue)) : dict :=
  fold_left (fun d kv => dict_set (fst kv) (snd kv) d) l [].

(** ** DataFrames *)

Record DataFrame : Type := mkDF {
  columns : list string;
  rows : list (list scalar)
}.

(** [pd.DataFrame()]. *)
Definition empty_frame : DataFrame := mkDF [] [].

(** The cell of [row] under label [c], for a row laid out along [cols]. *)
Fixpoint row_lookup (cols : list string) (row : list scalar) (c : string)
  : option scalar :=
  match cols, row with
  | c' :: cols', x :: row' =>
      if String.eqb c c' then Some x else row_lookup cols' row' c
  | _, _ => None
  end.

(** A row laid out along [cols] brought to the layout [cols']; a label
    the row lacks gives NaN. *)
Definition reindex (cols : list string) (cols' : list string)
  (row : list scalar) : list scalar :=
  map (fun c => default SNaN (row_lookup cols row c)) cols'.

(** The cell pandas makes of a dict value when the frame has the single
    index label 0: a scalar is broadcast, a list must have length one. *)
Definition cell_of_jvalue (v : jvalue) : outcome scalar :=
  match v with
  | JAtom a => Ok a
  | JList [a] => Ok a
  | JList _ => Raise ValueError
  end.

Fixpoint cells_of_values (vs : list jvalue) : outcome (list scalar) :=
  match vs with
  | [] => Ok []
  | v :: vs' =>
      try a <- cell_of_jvalue v in
      try r <- cells_of_values vs' in
      Ok (a :: r)
  end.

(** [pd.DataFrame(d, index=[0])]. *)
Definition df_of_dict (d : dict) : outcome DataFrame :=
  try cells <- cells_of_values (map snd d) in
  Ok (mkDF (keys d) [cells]).

(** [pd.concat([a, b])] along the rows (with or without [ignore_index]:
    the row index is never written).  Frames with the same labels are
    stacked; otherwise the labels are the union in order of first
    appearance and both frames are reindexed to it.  Cells keep their
    values: frames carry no column types, so neither the turning of an
    int column into floats when it receives NaN or a float, nor the
    refusal to reindex a frame with repeated labels, is part of the
    embedding. *)
Definition pd_concat (a b : DataFrame) : DataFrame :=
  if decide (columns a = columns b) then mkDF (columns a) (rows a ++ rows b)
  else
    let cols :=
      columns a ++ List.filter (fun c => negb (mem c (columns a))) (columns b) in
    mkDF cols
      (map (reindex (columns a) cols) (rows a)
       ++ map (reindex (columns b) cols) (rows b)).

(** [df[cols]]: the labels of [cols] that [df] lacks raise a KeyError. *)
Definition df_select (df : DataFrame) (cols : list string) : outcome DataFrame :=
  match List.filter (fun c => negb (mem c (columns df))) cols with
  | [] => Ok (mkDF cols (map (reindex (columns df) cols) (rows df)))
  | missing => Raise (KeyError missing)
  end.

(** A cell as [to_csv] prints it: missing values are empty. *)
Definition csv_cell (x : scalar) : string :=
  match x with
  | SNone | SNaN => EmptyString
  | _ => py_str x
  end.

(** The fields [df.to_csv(index=False)] writes: the header line, then one
    line per row. *)
Definition to_csv_fields (df : DataFrame) : list (list string) :=
  columns df :: map (map csv_cell) (rows df).

(** [df.columns = df.columns.str.strip(); return df]. *)
Definition df_strip_columns (df : DataFrame) : DataFrame :=
  mkDF (map strip (columns df)) (rows df).

(** ** Files and effects *)

(** The file system: the contents of every file that exists, by path. *)
Abbreviation fs := (gmap string string).

(** A computation that reads and writes files and may raise.  What was
    written before an exception stays written. *)
Definition io (A : Type) : Type := fs -> outcome A * fs.

Definition io_ret {A} (a : A) : io A := fun st => (Ok a, st).

Definition io_bind {A B} (m : io A) (k : A -> io B) : io B :=
  fun st =>
    match m st with
    | (Ok a, st') => k a st'
    | (Raise e, st') => (Raise e, st')
    end.

Definition lift {A} (m : outcome A) : io A := fun st => (m, st).

Definition io_raise {A} (e : exn) : io A := lift (Raise e).

Notation "'do' x <- m ; k" := (io_bind m (fun x => k))
  (at level 10, x name, m at level 100, k at level 200).

(** The side file of [perf_entry_df_to_csv]. *)
Definition perf_entry_csv : string := "perf_entry.csv".

(** The columns of a report that does not exist yet. *)
Definition report_columns : list string :=
  [ "pipeline"; "model"; "tags"; "args"; "docker_file"; "base_docker";
    "docker_sha"; "docker_image"; "machine_name"; "host_os";
    "gpu_architecture"; "n_gpus"; "training_precision"; "performance";
    "metric"; "status"; "build_duration"; "test_duration"; "git_commit";
    "relative_change" ].

(** The columns a multiple-results file must have. *)
Definition headings : list string := ["model"; "performance"; "metric"].

Definition three_columns_msg : string :=
  "Multiple Results CSV file must have three columns: model, performance, metric".

Definition missing_column_msg (heading : string) : string :=
  "Multiple Results CSV file is missing the " +:+ heading +:+ " column".

Definition no_result_msg : string :=
  "At least one of the following must be provided: single_result, exception_result, failed_result, multiple_results".

(** [if a:] for an optional path: [None] and the empty string are false. *)
Definition supplied (a : option string) : option string :=
  match a with
  | Some (String _ _ as p) => Some p
  | _ => None
  end.

(** [flatten_tags]: the dict as the call leaves it. *)
Definition flatten_tags (perf_entry : dict) : outcome dict :=
  match dict_get "tags" perf_entry with
  | None => Raise (KeyError ["tags"])
  | Some (JList items) =>
      Ok (dict_set "tags" (JAtom (SStr (join "," (map py_str items)))) perf_entry)
  | Some (JAtom _) => Ok perf_entry
  end.

(** [r[k]] for a record of [df.to_dict(orient="records")]. *)
Definition record_get (header : list string) (r : list scalar) (k : string)
  : outcome scalar :=
  match row_lookup header r k with
  | Some x => Ok x
  | None => Raise (KeyError [k])
  end.

(** The header checks of [handle_multiple_results]: first the number of
    columns, then each heading in turn. *)
Fixpoint check_headings (hs header : list string) : outcome unit :=
  match hs with
  | [] => Ok tt
  | heading :: hs' =>
      if mem heading header then check_headings hs' header
      else Raise (RuntimeError (missing_column_msg heading))
  end.

Definition check_header (header : list string) : outcome unit :=
  if (List.length header =? 3)%nat then check_headings headings header
  else Raise (RuntimeError three_columns_msg).

(** The status a record of the multiple-results file gets. *)
Definition status_of (performance : scalar) : string :=
  if is_not_None performance && notna performance then "SUCCESS" else "FAILURE".

(** One pass of the loop body of [handle_multiple_results] over the dict
    [row], which is [common_info_json] itself: the dict as the pass leaves
    it. *)
Definition fill_row (model_name : option string) (header : list string)
  (r : list scalar) (row : dict) : outcome dict :=
  try prefix <- match model_name with
                | Some p => Ok p
                | None => Raise TypeError
                end in
  try model <- record_get header r "model" in
  let row := dict_set "model" (JAtom (SStr (prefix +:+ "_" +:+ py_str model))) row in
  try performance <- record_get header r "performance" in
  let row := dict_set "performance" (JAtom performance) row in
  try metric <- record_get header r "metric" in
  let row := dict_set "metric" (JAtom metric) row in
  Ok (dict_set "status" (JAtom (SStr (status_of performance))) row).

(** The loop of [handle_multiple_results] over the records, threading the
    shared dict and the frame built so far. *)
Fixpoint add_results (model_name : option string) (header : list string)
  (records : list (list scalar)) (row : dict) (final : DataFrame)
  : outcome DataFrame :=
  match records with
  | [] => Ok final
  | r :: records' =>
      try row' <- fill_row model_name header r row in
      try one <- df_of_dict row' in
      add_results model_name header records' row' (pd_concat final one)
  end.

(** ** Console.sh

    The call is modelled from the point where the child process has been
    run: [proc] is what happened to it.  The arguments [timeout],
    [prefix] and [env] and the two attributes of the console only shape
    how the process is run and what is logged, so they do not appear. *)
Module Console.

(** The [secret] argument: annotated [bool], but nothing stops a caller
    from passing a string. *)
Inductive secret_arg : Type :=
| SecretBool (b : bool)
| SecretStr (s : string).

(** [if secret:]. *)
Definition truth (secret : secret_arg) : bool :=
  match secret with
  | SecretBool b => b
  | SecretStr EmptyString => false
  | SecretStr _ => true
  end.

(** [a + secret] for a string [a]. *)
Definition str_add (a : string) (secret : secret_arg) : outcome string :=
  match secret with
  | SecretStr s => Ok (a +:+ s)
  | SecretBool _ => Raise TypeError
  end.

(** What became of the child process: it ended with the output [outs]
    and [returncode], or it ran into the timeout, or reading from it
    raised something else. *)
Inductive proc : Type :=
| Exited (outs : string) (returncode : Z)
| TimeoutExpired
| Failed.

Definition sh (command : string) (can_fail : bool) (secret : secret_arg)
  (p : proc) : outcome string :=
  match p with
  | TimeoutExpired => Raise (RuntimeError "Console script timeout")
  | Failed => Raise (RuntimeError "Console script failed")
  | Exited outs returncode =>
      if negb (returncode =? 0)%Z then
        if negb can_fail then
          if negb (truth secret) then
            Raise (RuntimeError ("Subprocess '" +:+ command
                                 +:+ "' failed with exit code "
                                 +:+ str_of_Z returncode))
          else
            try m <- str_add "Subprocess '" secret in
            Raise (RuntimeError (m +:+ "' failed with exit code "
                                 +:+ str_of_Z returncode))
        else Ok (strip outs)
      else Ok (strip outs)
  end.

End Console.

(** The decoders and the writer the code relies on: what [pd.read_csv]
    makes of a file's contents ([None] when it raises); the members of
    the flat object [json.load] decodes from a file's contents, in
    textual order ([None] when it raises); and the text the csv writer
    makes of lines of fields. *)
Class Decoders : Type := {
  parse_csv : string -> option DataFrame;
  parse_json : string -> option (list (string * jvalue));
  csv_text : list (list string) -> string
}.

Section Aggregator.

Context `{decoders : Decoders}.

(** [pd.read_csv(path)]. *)
Definition read_csv (path : string) : io DataFrame :=
  fun st =>
    match st !! path with
    | None => (Raise (FileNotFoundError path), st)
    | Some text =>
        match parse_csv text with
        | Some df => (Ok df, st)
        | None => (Raise (DecodeError path), st)
        end
    end.

(** [read_json(js)]. *)
Definition read_json (js : string) : io dict :=
  fun st =>
    match st !! js with
    | None => (Raise (FileNotFoundError js), st)
    | Some text =>
        match parse_json text with
        | Some members => (Ok (dict_of_pairs members), st)
        | None => (Raise (DecodeError js), st)
        end
    end.

(** [df.to_csv(path, index=False)].  The write itself is taken to
    succeed: a path that cannot be written is not part of the
    embedding. *)
Definition to_csv (df : DataFrame) (path : string) : io unit :=
  fun st => (Ok tt, <[path := csv_text (to_csv_fields df)]> st).

Definition perf_entry_df_to_csv (perf_entry : DataFrame) : io unit :=
  to_csv perf_entry perf_entry_csv.

(** [perf_entry_dict_to_csv]: returns the dict as the call leaves it,
    since the caller goes on using the same object. *)
Definition perf_entry_dict_to_csv (perf_entry : dict) : io dict :=
  do perf_entry <- lift (flatten_tags perf_entry);
  do js_df <- lift (df_of_dict perf_entry);
  do _ <- perf_entry_df_to_csv js_df;
  io_ret perf_entry.

Definition handle_single_result (perf_csv_df : DataFrame) (single_result : string)
  : io DataFrame :=
  do single_result_json <- read_json single_result;
  do single_result_json <- perf_entry_dict_to_csv single_result_json;
  do one <- lift (df_of_dict single_result_json);
  io_ret (pd_concat perf_csv_df one).

Definition handle_exception_result (perf_csv_df : DataFrame)
  (exception_result : string) : io DataFrame :=
  do exception_result_json <- read_json exception_result;
  do exception_result_json <- perf_entry_dict_to_csv exception_result_json;
  do one <- lift (df_of_dict exception_result_json);
  io_ret (pd_concat perf_csv_df one).

Definition handle_multiple_results (perf_csv_df : DataFrame)
  (multiple_results : string) (common_info model_name : option string)
  : io DataFrame :=
  do multiple_results_df <- read_csv multiple_results;
  let multiple_results_df := df_strip_columns multiple_results_df in
  let multiple_results_header := columns multiple_results_df in
  do _ <- lift (check_header multiple_results_header);
  do common_info_json <- match common_info with
                         | Some p => read_json p
                         | None => io_raise TypeError
                         end;
  do common_info_json <- lift (flatten_tags common_info_json);
  do final_multiple_results_df <-
    lift (add_results model_name multiple_results_header
            (rows multiple_results_df) common_info_json empty_frame);
  do final_multiple_results_df <-
    lift (df_select final_multiple_results_df (columns perf_csv_df));
  do _ <- perf_entry_df_to_csv final_multiple_results_df;
  io_ret (pd_concat perf_csv_df final_multiple_results_df).

(** The table [update_perf_csv] starts from. *)
Definition load_report (perf_csv : string) : io DataFrame :=
  fun st =>
    match st !! perf_csv with
    | None => (Ok (mkDF report_columns []), st)
    | Some _ => io_bind (read_csv perf_csv) (fun df => io_ret (df_strip_columns df)) st
    end.

Definition update_perf_csv
  (single_result exception_result failed_result multiple_results : option string)
  (perf_csv : string) (model_name common_info : option string) : io unit :=
  do perf_csv_df <- load_report perf_csv;
  do perf_csv_df <-
    match supplied multiple_results with
    | Some multiple_results =>
        handle_multiple_results perf_csv_df multiple_results common_info model_name
    | None =>
        match supplied single_result with
        | Some single_result => handle_single_result perf_csv_df single_result
        | None =>
            match supplied exception_result with
            | Some exception_result =>
                handle_exception_result perf_csv_df exception_result
            | None => io_raise (RuntimeError no_result_msg)
            end
        end
    end;
  to_csv perf_csv_df perf_csv.


End Aggregator.

(** ** Notions used in the statements *)

(** A frame is rectangular when every row has one cell per column. *)
Definition rectangular (df : DataFrame) : Prop :=
  Forall (fun r => List.length r = List.length (columns df)) (rows df).

(** The values pandas accepts in a one-row frame. *)
Definition cell_ok (v : jvalue) : bool :=
  match cell_of_jvalue v with
  | Ok _ => true
  | Raise _ => false
  end.

Definition frame_ok (d : dict) : bool := forallb cell_ok (map snd d).

(** The cell of a dict value, and of a key that may be absent: what is
    absent is NaN in the frame. *)
Definition cell_total (v : jvalue) : scalar :=
  match cell_of_jvalue v with
  | Ok a => a
  | Raise _ => SNaN
  end.

Definition value_cell (o : option jvalue) : scalar :=
  match o with
  | Some v => cell_total v
  | None => SNaN
  end.

(** The four entries the loop of [handle_multiple_results] writes into
    the shared dict for a record with the given cells. *)
Definition overlay (prefix : string) (model performance metric : scalar)
  (row : dict) : dict :=
  dict_set "status" (JAtom (SStr (status_of performance)))
    (dict_set "metric" (JAtom metric)
       (dict_set "performance" (JAtom performance)
          (dict_set "model" (JAtom (SStr (prefix +:+ "_" +:+ py_str model))) row))).

Definition result_keys : list string := ["model"; "performance"; "metric"; "status"].

(** The cell under column [c] of the report row made from record [r] of a
    multiple-results file with header [header], given the (flattened)
    common information [common] and the model name [prefix]. *)
Definition new_cell (prefix : string) (header : list string) (common : dict)
  (r : list scalar) (c : string) : scalar :=
  let field k := default SNaN (row_lookup header r k) in
  if String.eqb c "status" then SStr (status_of (field "performance"))
  else if String.eqb c "metric" then field "metric"
  else if String.eqb c "performance" then field "performance"
  else if String.eqb c "model" then SStr (prefix +:+ "_" +:+ py_str (field "model"))
  else value_cell (dict_get c common).

Definition new_row (prefix : string) (header : list string) (common : dict)
  (cols : list string) (r : list scalar) : list scalar :=
  map (new_cell prefix header common r) cols.

(** A record of a checked file has the three fields. *)
Definition has_fields (header : list string) (r : list scalar) : Prop :=
  exists m p t,
    row_lookup header r "model" = Some m /\
    row_lookup header r "performance" = Some p /\
    row_lookup header r "metric" = Some t.

(** The heading whose absence [check_headings] reports. *)
Definition first_missing (header : list string) : option string :=
  find (fun heading => negb (mem heading header)) headings.

(** The columns of a header that should not be there, and the required
    ones that are not. *)
Definition offending (header : list string) : list string :=
  List.filter (fun c => negb (mem c headings)) header
  ++ List.filter (fun c => negb (mem c header)) headings.

(** Whether a message names one of the offending columns of [header]. *)
Definition names_offending (header : list string) (msg : string) : bool :=
  existsb (fun c => contains c msg) (offending header).

(** A multiple-results artifact that gets as far as the selection of the
    report's columns: the csv file decodes to the rectangular frame
    [mdf], which has at least one record and passes the header checks; the
    common information decodes to a JSON object that has tags and
    flattens to [common]; every value of [common] fits a one-row frame. *)
Definition well_formed_artifact `{decoders : Decoders} (st : fs)
  (multiple_results common_info : string) (mdf : DataFrame) (common : dict) : Prop :=
  (exists text, st !! multiple_results = Some text /\ parse_csv text = Some mdf) /\
  check_header (map strip (columns mdf)) = Ok tt /\
  rectangular mdf /\
  rows mdf <> [] /\
  (exists text members,
      st !! common_info = Some text /\ parse_json text = Some members /\
      flatten_tags (dict_of_pairs members) = Ok common) /\
  frame_ok common = true.

(** A multiple-results artifact that is valid against the report table
    [df]: it is well formed and its common information supplies the
    remaining fields, that is, every column of the report is a key of
    [common] or one of the four keys the loop sets. *)
Definition valid_artifact `{decoders : Decoders} (st : fs) (df : DataFrame)
  (multiple_results common_info : string) (mdf : DataFrame) (common : dict) : Prop :=
  well_formed_artifact st multiple_results common_info mdf common /\
  (forall c, In c (columns df) -> In c result_keys \/ In c (keys common)).

(** The columns of the report [df] that the rows built from [common]
    lack. *)
Definition missing_columns (df : DataFrame) (common : dict) : list string :=
  List.filter (fun c => negb (mem c result_keys || mem c (keys common))) (columns df).

(** The one-row frame of a dict whose values fit, the labels of a
    concatenation, and a dict laid out along given columns. *)
Definition one_row (d : dict) : DataFrame :=
  mkDF (keys d) [map cell_total (map snd d)].

Definition union_columns (cols ks : list string) : list string :=
  cols ++ List.filter (fun c => negb (mem c cols)) ks.

Definition aligned_row (d : dict) (cols : list string) : list scalar :=
  map (fun c => value_cell (dict_get c d)) cols.

(** The tags cell a JSON tags value ends up as. *)
Definition flat_tags (tags : jvalue) : scalar :=
  match tags with
  | JList items => SStr (join "," (map py_str items))
  | JAtom a => a
  end.

(** The report line of the single-result scenario, for the given tags
    field. *)
Definition resnet_line (tags_field : string) : list string :=
  [EmptyString; "resnet"; tags_field] ++ repeat EmptyString 10
  ++ ["123.4"; "images/sec"; "SUCCESS"] ++ repeat EmptyString 4.

(** The report lines of the multiple-results scenario. *)
Definition suite1_A_line : list string :=
  ["p1"; "suite1_A"; "x,y"] ++ repeat EmptyString 10
  ++ ["10.0"; "tok/s"; "SUCCESS"] ++ repeat EmptyString 4.

Definition suite1_B_line : list string :=
  ["p1"; "suite1_B"; "x,y"] ++ repeat EmptyString 10
  ++ [EmptyString; "tok/s"; "FAILURE"] ++ repeat EmptyString 4.

(** ** Sample artifacts

    File contents and what the decoders make of them, used to run the
    code on concrete inputs. *)

(** A decoder given by a table from file contents to decoded values. *)
Fixpoint decode_table {A} (t : list (string * A)) (text : string) : option A :=
  match t with
  | [] => None
  | (k, v) :: t' => if String.eqb text k then Some v else decode_table t' text
  end.

(** A csv writer: fields joined by commas, lines ended by a newline. *)
Definition newline : string := String "010"%char EmptyString.

Definition sample_csv_text (lines : list (list string)) : string :=
  String.concat EmptyString (map (fun l => join "," l +:+ newline) lines).

Definition dq : string := String "034"%char EmptyString.

(** A JSON string literal, and a JSON object from its members' texts. *)
Definition q (s : string) : string := dq +:+ s +:+ dq.

Definition member (k v : string) : string := q k +:+ ":" +:+ v.

Definition object (members : list string) : string :=
  "{" +:+ join "," members +:+ "}".

(** The single result of the spec's scenario, which has no tags. *)
Definition r_json_members : list (string * jvalue) :=
  [ ("model", JAtom (SStr "resnet")); ("performance", JAtom (SStr "123.4"));
    ("metric", JAtom (SStr "images/sec")); ("status", JAtom (SStr "SUCCESS")) ].

Definition r_json_text : string :=
  object [ member "model" (q "resnet"); member "performance" (q "123.4");
           member "metric" (q "images/sec"); member "status" (q "SUCCESS") ].

(** The same result with a tags list. *)
Definition r_tags_members : list (string * jvalue) :=
  r_json_members ++ [("tags", JList [SStr "a"; SStr "b"])].

Definition r_tags_text : string :=
  object [ member "model" (q "resnet"); member "performance" (q "123.4");
           member "metric" (q "images/sec"); member "status" (q "SUCCESS");
           member "tags" ("[" +:+ q "a" +:+ "," +:+ q "b" +:+ "]") ].

(** A result with a key the report does not have, its keys in another
    order. *)
Definition r_extra_members : list (string * jvalue) :=
  [ ("status", JAtom (SStr "FAILURE")); ("extra", JAtom (SStr "e"));
    ("tags", JAtom (SStr "t")); ("model", JAtom (SStr "resnet")) ].

Definition r_extra_text : string :=
  object [ member "status" (q "FAILURE"); member "extra" (q "e");
           member "tags" (q "t"); member "model" (q "resnet") ].

(** The multiple-results file of the spec's scenario, as [pd.read_csv]
    reads it: a float column with a missing value. *)
Definition multiple_results_text : string :=
  "model,performance,metric" +:+ newline +:+ "A,10.0,tok/s" +:+ newline
  +:+ "B,,tok/s".

Definition multiple_results_frame : DataFrame :=
  mkDF ["model"; "performance"; "metric"]
    [ [SStr "A"; SFloat "10.0"; SStr "tok/s"]; [SStr "B"; SNaN; SStr "tok/s"] ].

(** The common information of the scenario. *)
Definition common_info_members : list (string * jvalue) :=
  [ ("pipeline", JAtom (SStr "p1")); ("tags", JList [SStr "x"; SStr "y"]) ].

Definition common_info_text : string :=
  object [ member "pipeline" (q "p1");
           member "tags" ("[" +:+ q "x" +:+ "," +:+ q "y" +:+ "]") ].

(** The columns of the report that neither the scenario's common
    information nor the loop supplies. *)
Definition other_columns : list string :=
  [ "args"; "docker_file"; "base_docker"; "docker_sha"; "docker_image";
    "machine_name"; "host_os"; "gpu_architecture"; "n_gpus";
    "training_precision"; "build_duration"; "test_duration"; "git_commit";
    "relative_change" ].

(** The scenario's common information completed with those columns, each
    the empty string, as [RunDetails] initialises them. *)
Definition common_info_full_members : list (string * jvalue) :=
  common_info_members ++ map (fun k => (k, JAtom (SStr EmptyString))) other_columns.

Definition common_info_full_text : string :=
  object ([ member "pipeline" (q "p1");
            member "tags" ("[" +:+ q "x" +:+ "," +:+ q "y" +:+ "]") ]
          ++ map (fun k => member k (q EmptyString)) other_columns).

(** Multiple-results files with a wrong header. *)
Definition four_columns_text : string :=
  "model,performance,metric,extra" +:+ newline +:+ "A,1.0,tok/s,z".

Definition four_columns_frame : DataFrame :=
  mkDF ["model"; "performance"; "metric"; "extra"]
    [ [SStr "A"; SFloat "1.0"; SStr "tok/s"; SStr "z"] ].

Definition perf_column_text : string :=
  "model, perf,metric" +:+ newline +:+ "A,1.0,tok/s".

Definition perf_column_frame : DataFrame :=
  mkDF ["model"; " perf"; "metric"] [ [SStr "A"; SFloat "1.0"; SStr "tok/s"] ].

Definition sample_parse_json : string -> option (list (string * jvalue)) :=
  decode_table
    [ (r_json_text, r_json_members); (r_tags_text, r_tags_members);
      (r_extra_text, r_extra_members); (common_info_text, common_info_members);
      (common_info_full_text, common_info_full_members) ].

Definition sample_parse_csv : string -> option DataFrame :=
  decode_table
    [ (multiple_results_text, multiple_results_frame);
      (four_columns_text, four_columns_frame);
      (perf_column_text, perf_column_frame) ].

(** A directory holding these files and no report. *)
Definition sample_fs : fs :=
  list_to_map
    [ ("r.json", r_json_text); ("r_tags.json", r_tags_text);
      ("r_extra.json", r_extra_text);
      ("multiple_results.csv", multiple_results_text);
      ("common_info.json", common_info_text);
      ("common_info_full.json", common_info_full_text);
      ("four_columns.csv", four_columns_text);
      ("perf_column.csv", perf_column_text) ].

(** The flattened common information of the completed scenario. *)
Definition sample_common : dict :=
  dict_set "tags" (JAtom (SStr "x,y")) (dict_of_pairs common_info_full_members).

(** The directory with the tagged result under the name of the
    scenario's result, and with the completed common information under
    the name of the scenario's. *)
Definition tagged_fs : fs := <["r.json" := r_tags_text]> sample_fs.

Definition completed_fs : fs :=
  <["common_info.json" := common_info_full_text]> sample_fs.

(** The report line the result with the unknown key gives: its extra
    field comes last, after the twenty of the schema. *)
Definition extra_line : list string :=
  [EmptyString; "resnet"; "t"] ++ repeat EmptyString 12
  ++ ["FAILURE"] ++ repeat EmptyString 4 ++ ["e"].

Definition sample_decoders : Decoders :=
  {| parse_csv := sample_parse_csv;
     parse_json := sample_parse_json;
     csv_text := sample_csv_text |}.

(** ** Notions used in the further properties *)

(** Whether a string starts, or ends, with a whitespace character. *)
Definition starts_with_space (s : string) : bool :=
  match s with
  | EmptyString => false
  | String c _ => is_space c
  end.

Fixpoint ends_with_space (s : string) : bool :=
  match s with
  | EmptyString => false
  | String c EmptyString => is_space c
  | String _ t => ends_with_space t
  end.

(** A row of a table that gained [n] columns: the new cells are NaN. *)
Definition padded (n : nat) (row : list scalar) : list scalar :=
  row ++ repeat SNaN n.

(** A frame with no int cell: its columns are of strings, floats,
    booleans or missing values, which a concatenation leaves as they
    are. *)
Definition is_int (x : scalar) : bool :=
  match x with
  | SInt _ => true
  | _ => false
  end.

Definition no_int_cell (df : DataFrame) : bool :=
  forallb (forallb (fun x => negb (is_int x))) (rows df).

(** ** Docker.sh

    [Docker.sh] hands its command to [Console.sh], wrapped in a
    [docker exec]; [can_fail] is not passed on, so it keeps its default. *)
Module Docker.

Definition exec_command (docker_sha command : string) : string :=
  "docker exec " +:+ docker_sha +:+ " bash -c " +:+ dq +:+ command +:+ dq.

Definition sh (docker_sha command : string) (secret : Console.secret_arg)
  (p : Console.proc) : outcome string :=
  Console.sh (exec_command docker_sha command) false secret p.

End Docker.

(** ** Probing the environment

    The functions that ask the machine what it is are modelled from the
    answers the machine gives: how a probe command ended, which files
    exist.  They fail in more ways than the aggregator does. *)
Module Env.

Inductive failure : Type :=
| Exception (msg : string)
| UnboundLocalError (name : string)
| IndexError
| ValueError
| ProcessError
| OtherError
| SystemExit (code : Z).

Inductive result (A : Type) : Type :=
| Return (a : A)
| Fail (f : failure).
Arguments Return {A} a.
Arguments Fail {A} f.

(** How [subprocess_run(cmd)] ended: the command ran and exited with 0,
    the binary was not found, the command exited with another code, or
    some other exception was raised (a [PermissionError], say). *)
Inductive probe : Type :=
| Ran
| FileNotFound
| CalledProcessError
| Other.

(** [except ERRORS] in [get_gpu_vendor]. *)
Definition in_ERRORS (p : probe) : bool :=
  match p with
  | FileNotFound | CalledProcessError => true
  | _ => false
  end.

(** [get_gpu_vendor], given how the probes of nvidia-smi and of rocm-smi
    end (the second is only run when the first fails with one of
    ERRORS). *)
Definition get_gpu_vendor (nvidia_smi rocm_smi : probe) : result string :=
  match nvidia_smi with
  | Ran => Return "NVIDIA"
  | _ =>
      if in_ERRORS nvidia_smi then
        match rocm_smi with
        | Ran => Return "AMD"
        | _ =>
            if in_ERRORS rocm_smi then
              Fail (Exception "Unsupported GPU: Neither AMD nor NVIDIA")
            else Fail OtherError
        end
      else Fail OtherError
  end.

(** [try: gpu_vendor = get_gpu_vendor() except Exception: sys.exit(1)],
    the opening of every function that depends on the vendor. *)
Definition vendor_or_exit (nvidia_smi rocm_smi : probe) : result string :=
  match get_gpu_vendor nvidia_smi rocm_smi with
  | Return v => Return v
  | Fail _ => Fail (SystemExit 1)
  end.

Definition get_dockerfile_gpu_suffix (nvidia_smi rocm_smi : probe) : result string :=
  match vendor_or_exit nvidia_smi rocm_smi with
  | Fail f => Fail f
  | Return gpu_vendor =>
      if String.eqb gpu_vendor "NVIDIA" then Return ".nvidia"
      else if String.eqb gpu_vendor "AMD" then Return ".amd"
      else Return EmptyString
  end.

Definition get_gpu_docker_args (nvidia_smi rocm_smi : probe) : result string :=
  match vendor_or_exit nvidia_smi rocm_smi with
  | Fail f => Fail f
  | Return gpu_vendor =>
      if String.eqb gpu_vendor "NVIDIA" then Return "--gpus all --shm-size 16g"
      else if String.eqb gpu_vendor "AMD" then
        Return "--device=/dev/kfd --device=/dev/dri --shm-size 16g"
      else Return EmptyString
  end.

(** [get_host_os], given whether /usr/bin/apt, /usr/bin/yum and
    /usr/bin/zypper exist.  In the last branch the message of the
    exception reads [host_os], which no branch has assigned. *)
Definition get_host_os (apt yum zypper : bool) : result string :=
  if apt then Return "HOST_UBUNTU"
  else if yum then Return "HOST_CENTOS"
  else if zypper then Return "HOST_SLES"
  else Fail (UnboundLocalError "host_os").

Definition get_dockerfile_linux_suffix (apt yum zypper : bool) : result string :=
  match get_host_os apt yum zypper with
  | Fail _ => Fail (SystemExit 1)
  | Return linux_dist =>
      if String.eqb linux_dist "HOST_UBUNTU" then Return ".ubuntu"
      else if String.eqb linux_dist "HOST_CENTOS" then Return ".centos"
      else if String.eqb linux_dist "HOST_SLES" then Return ".sles"
      else Return EmptyString
  end.

End Env.

(** ** Reading a Dockerfile *)

Definition cr : ascii := "013"%char.
Definition lf : ascii := "010"%char.

(** What reading in text mode makes of the line ends: a carriage return,
    with the line feed that follows it if there is one, becomes a line
    feed.  [after_cr] says that the character before was a carriage
    return. *)
Fixpoint translate_newlines (after_cr : bool) (s : string) : string :=
  match s with
  | EmptyString => EmptyString
  | String c s' =>
      if Ascii.eqb c cr then String lf (translate_newlines true s')
      else if Ascii.eqb c lf then
        if after_cr then translate_newlines false s'
        else String lf (translate_newlines false s')
      else String c (translate_newlines false s')
  end.

(** The lines of a text, each with its line feed; the last one may have
    none. *)
Fixpoint lines_of (s : string) : list string :=
  match s with
  | EmptyString => []
  | String c s' =>
      if Ascii.eqb c lf then String c EmptyString :: lines_of s'
      else
        match lines_of s' with
        | [] => [String c EmptyString]
        | l :: ls => String c l :: ls
        end
  end.

(** [f.readlines()] for a file opened in text mode. *)
Definition readlines (text : string) : list string :=
  lines_of (translate_newlines false text).

(** [s.split(sep)] for a separator of one character. *)
Fixpoint split_on (sep : ascii) (s : string) : list string :=
  match s with
  | EmptyString => [EmptyString]
  | String c s' =>
      if Ascii.eqb c sep then EmptyString :: split_on sep s'
      else
        match split_on sep s' with
        | [] => [String c EmptyString]
        | p :: ps => String c p :: ps
        end
  end.

(** [s.replace(c, "")] for a string [c] of one character. *)
Fixpoint remove_char (c : ascii) (s : string) : string :=
  match s with
  | EmptyString => EmptyString
  | String c' s' =>
      if Ascii.eqb c' c then remove_char c s' else String c' (remove_char c s')
  end.

(** [c in s] for a string [c] of one character. *)
Fixpoint has_char (c : ascii) (s : string) : bool :=
  match s with
  | EmptyString => false
  | String c' s' => Ascii.eqb c' c || has_char c s'
  end.

Definition base_docker_marker : string := "ARG BASE_DOCKER".

(** [line.split("=")[-1].replace("\n", "").strip()]. *)
Definition base_docker_of_line (line : string) : string :=
  strip (remove_char lf (List.last (split_on "="%char line) EmptyString)).

(** [get_base_docker(dockerfile)]. *)
Definition get_base_docker (dockerfile : string) (st : fs) : outcome string :=
  match st !! dockerfile with
  | None => Raise (FileNotFoundError dockerfile)
  | Some text =>
      match find (contains base_docker_marker) (readlines text) with
      | Some line => Ok (base_docker_of_line line)
      | None => Ok EmptyString
      end
  end.

(** A string that [get_base_docker] gives back as it stands: no equals
    sign, no line feed, no whitespace at either end. *)
Definition plain_image (image : string) : bool :=
  negb (has_char "="%char image) && negb (has_char lf image)
  && negb (starts_with_space image) && negb (ends_with_space image).

(** ** Render nodes *)



Section RenderNodes.

(** [int(s)] for a string, [None] when it raises a ValueError. *)
Variable py_int : string -> option Z.




End RenderNodes.

(** [int(s)] on a plain numeral: an optional sign and decimal digits,
    single underscores allowed between digits.  [seen] says that the
    character before was a digit. *)
Definition digit_of (c : ascii) : option Z :=
  let n := Z.of_nat (nat_of_ascii c) in
  if ((48 <=? n) && (n <=? 57))%Z then Some (n - 48)%Z else None.

Fixpoint digits_value (s : string) (acc : Z) (seen : bool) : option Z :=
  match s with
  | EmptyString => if seen then Some acc else None
  | String c s' =>
      if Ascii.eqb c "_"%char then
        if seen then digits_value s' acc false else None
      else
        match digit_of c with
        | Some d => digits_value s' (10 * acc + d)%Z true
        | None => None
        end
  end.

Definition int_of_numeral (s : string) : option Z :=
  match s with
  | String "+"%char s' => digits_value s' 0 false
  | String "-"%char s' => Z.opp <$> digits_value s' 0 false
  | _ => digits_value s 0 false
  end.

(** ** Docker arguments *)

(** [d[k]] for a dict of scalars, [None] standing for the KeyError. *)
Fixpoint lookup_key {A} (k : string) (d : list (string * A)) : option A :=
  match d with
  | [] => None
  | (k', v) :: d' => if String.eqb k k' then Some v else lookup_key k d'
  end.

(** [x == True]: True itself, the int 1 and the float 1.0. *)
Definition equals_True (x : scalar) : bool :=
  match x with
  | SBool true => true
  | SInt 1 => true
  | SFloat "1.0" => true
  | _ => false
  end.

(** What one pass of the loop of [get_env_docker_args] adds. *)
Definition env_fragment (kv : string * scalar) : string :=
  "--env " +:+ fst kv +:+ "=" +:+ py_str (snd kv) +:+ " ".

(** [get_env_docker_args(run_envs)], for a dict with string keys and
    scalar values. *)
Definition get_env_docker_args (run_envs : option (list (string * scalar))) : string :=
  match run_envs with
  | Some ((_ :: _) as items) =>
      fold_left (fun env_args kv => env_args +:+ env_fragment kv) items EmptyString
  | _ => EmptyString
  end.

(** The mode of a mount: read-write when the dict has a read_write entry
    that equals True. *)
Definition mount_mode (mount_data_path : list (string * scalar)) : string :=
  match lookup_key "read_write" mount_data_path with
  | Some rw => if equals_True rw then ":rw " else ":ro "
  | None => ":ro "
  end.

(** What one pass of the loop of [get_mount_docker_args] adds, for a
    dict of scalars. *)
Definition mount_fragment (mount_data_path : list (string * scalar)) : outcome string :=
  match lookup_key "host_path" mount_data_path with
  | None => Raise (KeyError ["host_path"])
  | Some host_path =>
      match lookup_key "container_path" mount_data_path with
      | None => Raise (KeyError ["container_path"])
      | Some container_path =>
          Ok ("-v " +:+ py_str host_path +:+ ":" +:+ py_str container_path
              +:+ mount_mode mount_data_path)
      end
  end.

Fixpoint add_mounts (mount_args : string) (mounts : list (list (string * scalar)))
  : outcome string :=
  match mounts with
  | [] => Ok mount_args
  | mount_data_path :: mounts' =>
      try fragment <- mount_fragment mount_data_path in
      add_mounts (mount_args +:+ fragment) mounts'
  end.

(** [get_mount_docker_args(mount_data_paths)]. *)
Definition get_mount_docker_args
  (mount_data_paths : option (list (list (string * scalar)))) : outcome string :=
  match mount_data_paths with
  | Some ((_ :: _) as mounts) => add_mounts EmptyString mounts
  | _ => Ok EmptyString
  end.

(** ** update_dict

    The dicts [update_dict] merges are nested: a value is a leaf (a
    scalar, or a list of scalars) or a dict of values.  The first
    argument is any value, since the recursive call is made on whatever
    [d.get(k, {})] returns. *)
Module Nested.

Unset Elimination Schemes.
Set Elimination Schemes.









End Nested.

(** ** RunDetails

    The attributes of a run, in the order [__init__] assigns them, which
    is the order [vars(self)] lists them in. *)
Module RunDetails.

Record t : Type := mk {
  model : jvalue;
  pipeline : jvalue;
  tags : jvalue;
  args : jvalue;
  docker_file : jvalue;
  base_docker : jvalue;
  docker_sha : jvalue;
  docker_image : jvalue;
  machine_name : jvalue;
  host_os : jvalue;
  gpu_architecture : jvalue;
  n_gpus : jvalue;
  training_precision : jvalue;
  performance : jvalue;
  metric : jvalue;
  status : jvalue;
  build_duration : jvalue;
  test_duration : jvalue;
  git_commit : jvalue;
  relative_change : jvalue
}.

(** [RunDetails()]. *)
Definition init : t :=
  let blank := JAtom (SStr EmptyString) in
  mk blank blank blank blank blank blank blank blank blank blank blank blank
     blank blank blank (JAtom (SStr "FAILURE")) blank blank blank blank.

(** [vars(self)]. *)
Definition vars (self : t) : dict :=
  [ ("model", model self); ("pipeline", pipeline self); ("tags", tags self);
    ("args", args self); ("docker_file", docker_file self);
    ("base_docker", base_docker self); ("docker_sha", docker_sha self);
    ("docker_image", docker_image self); ("machine_name", machine_name self);
    ("host_os", host_os self); ("gpu_architecture", gpu_architecture self);
    ("n_gpus", n_gpus self); ("training_precision", training_precision self);
    ("performance", performance self); ("metric", metric self);
    ("status", status self); ("build_duration", build_duration self);
    ("test_duration", test_duration self); ("git_commit", git_commit self);
    ("relative_change", relative_change self) ].

Definition keys_to_exclude (multiple_results : bool) : list string :=
  if multiple_results then ["model"; "performance"; "metric"; "status"] else [].

Definition output_dict (self : t) (multiple_results : bool) : dict :=
  List.filter (fun kv => negb (mem (fst kv) (keys_to_exclude multiple_results)))
    (vars self).

(** [generate_json], given the text [json.dump] makes of a dict.  A file
    cannot be opened under the empty name. *)
Definition generate_json (json_dump : dict -> string) (self : t)
  (json_name : string) (multiple_results : bool) : io unit :=
  fun st =>
    match json_name with
    | EmptyString => (Raise (FileNotFoundError json_name), st)
    | _ => (Ok tt, <[json_name := json_dump (output_dict self multiple_results)]> st)
    end.

(** Whether every attribute other than the tags fits a cell of a one-row
    frame. *)
Definition fits (self : t) : bool :=
  forallb (fun kv => String.eqb (fst kv) "tags" || cell_ok (snd kv)) (vars self).

End RunDetails.

(** A JSON writer for flat records whose strings need no escaping, a run
    with a model, tags and a result, and decoders that read back what the
    writer makes of that run. *)
Definition json_scalar (x : scalar) : string :=
  match x with
  | SNone => "null"
  | SNaN => "NaN"
  | SBool true => "true"
  | SBool false => "false"
  | SInt z => str_of_Z z
  | SFloat repr => repr
  | SStr s => q s
  end.

Definition json_value (v : jvalue) : string :=
  match v with
  | JAtom a => json_scalar a
  | JList items => "[" +:+ join "," (map json_scalar items) +:+ "]"
  end.

Definition sample_json_dump (d : dict) : string :=
  object (map (fun kv => member (fst kv) (json_value (snd kv))) d).

Definition sample_run : RunDetails.t :=
  let blank := JAtom (SStr EmptyString) in
  RunDetails.mk (JAtom (SStr "resnet")) (JAtom (SStr "p1"))
    (JList [SStr "x"; SStr "y"]) blank blank blank blank blank
    (JAtom (SStr "node1")) blank blank (JAtom (SInt 8)) blank
    (JAtom (SFloat "123.4")) (JAtom (SStr "images/sec")) (JAtom (SStr "SUCCESS"))
    blank blank blank blank.

(** A multiple-results file with the header and no record. *)
Definition header_only_text : string := "model,performance,metric" +:+ newline.

Definition header_only_frame : DataFrame :=
  mkDF ["model"; "performance"; "metric"] [].

Definition run_decoders : Decoders :=
  {| parse_csv := fun text =>
       if String.eqb text header_only_text then Some header_only_frame
       else sample_parse_csv text;
     parse_json := fun text =>
       match
         decode_table
           [ (sample_json_dump (RunDetails.output_dict sample_run false),
              RunDetails.output_dict sample_run false);
             (sample_json_dump (RunDetails.output_dict sample_run true),
              RunDetails.output_dict sample_run true) ] text
       with
       | Some members => Some members
       | None => sample_parse_json text
       end;
     csv_text := sample_csv_text |}.

(** The sample directory with the file without records, and with the
    scenario's multiple-results file standing in for a report that has
    three columns and two rows. *)
Definition run_fs : fs := <["header_only.csv" := header_only_text]> sample_fs.

Definition small_report_fs : fs := <["perf.csv" := multiple_results_text]> tagged_fs.

(** The sample directory with a report that exists and is empty. *)
Definition unreadable_report_fs : fs := <["perf.csv" := EmptyString]> sample_fs.

(** Two mounts, the first of them read-write, and an update of two keys,
    one of them nested. *)
Definition sample_mounts : list (list (string * scalar)) :=
  [ [ ("host_path", SStr "/a"); ("container_path", SStr "/b");
      ("read_write", SBool true) ];
    [ ("host_path", SStr "/c"); ("container_path", SStr "/d") ] ].


(** The report lines of the sample run, alone and as the common
    information of the scenario's two records. *)
Definition sample_run_line : list string :=
  ["p1"; "resnet"; "x,y"] ++ repeat EmptyString 5 ++ ["node1"]
  ++ repeat EmptyString 2 ++ ["8"; EmptyString; "123.4"; "images/sec"; "SUCCESS"]
  ++ repeat EmptyString 4.

Definition sample_run_lines : list (list string) :=
  [ ["p1"; "suite1_A"; "x,y"] ++ repeat EmptyString 5 ++ ["node1"]
    ++ repeat EmptyString 2 ++ ["8"; EmptyString; "10.0"; "tok/s"; "SUCCESS"]
    ++ repeat EmptyString 4;
    ["p1"; "suite1_B"; "x,y"] ++ repeat EmptyString 5 ++ ["node1"]
    ++ repeat EmptyString 2 ++ ["8"; EmptyString; EmptyString; "tok/s"; "FAILURE"]
    ++ repeat EmptyString 4 ].

(** ** GPU architecture

    [re.search] of the pattern ([AHV])(\d{3}): the match at the start of a
    string, and the leftmost match. *)
Definition is_digit (c : ascii) : bool :=
  let n := nat_of_ascii c in ((48 <=? n) && (n <=? 57))%nat.

Definition is_AHV (c : ascii) : bool :=
  Ascii.eqb c "A" || Ascii.eqb c "H" || Ascii.eqb c "V".

Definition arch_at (s : string) : option string :=
  match s with
  | String c (String d1 (String d2 (String d3 _))) =>
      if is_AHV c && is_digit d1 && is_digit d2 && is_digit d3
      then Some (String c (String d1 (String d2 (String d3 EmptyString))))
      else None
  | _ => None
  end.

Fixpoint search_arch (s : string) : option string :=
  match arch_at s with
  | Some a => Some a
  | None =>
      match s with
      | EmptyString => None
      | String _ s' => search_arch s'
      end
  end.

Definition no_arch_msg (gpu_name : string) : string :=
  "Failed to get GPU architecture of NVIDIA: " +:+ gpu_name.

Definition unsupported_vendor_msg (gpu_vendor : string) : string :=
  "Unsupported GPU vendor: " +:+ gpu_vendor.

(** [get_system_gpu_arch], given how the probes end and what the query of
    nvidia-smi and the grep over rocminfo print, [None] when the command
    fails. *)
Definition get_system_gpu_arch (nvidia_smi rocm_smi : Env.probe)
  (nvidia_query rocminfo : option string) : Env.result string :=
  match Env.vendor_or_exit nvidia_smi rocm_smi with
  | Env.Fail f => Env.Fail f
  | Env.Return gpu_vendor =>
      if String.eqb gpu_vendor "NVIDIA" then
        match nvidia_query with
        | None => Env.Fail Env.ProcessError
        | Some out =>
            let gpu_name := strip out in
            match search_arch gpu_name with
            | Some gpu_arch => Env.Return gpu_arch
            | None => Env.Fail (Env.Exception (no_arch_msg gpu_name))
            end
        end
      else if String.eqb gpu_vendor "AMD" then
        match rocminfo with
        | None => Env.Fail Env.ProcessError
        | Some out => Env.Return (strip out)
        end
      else Env.Fail (Env.Exception (unsupported_vendor_msg gpu_vendor))
  end.

(** * Properties *)

(** ** Monadic steps *)

Lemma io_bind_ok {A B} (m : io A) (k : A -> io B) st a st' :
  m st = (Ok a, st') -> io_bind m k st = k a st'.
Proof. intros H. unfold io_bind. now rewrite H. Qed.

Lemma io_bind_raise {A B} (m : io A) (k : A -> io B) st e st' :
  m st = (Raise e, st') -> io_bind m k st = (Raise e, st').
Proof. intros H. unfold io_bind. now rewrite H. Qed.

(** ** Dicts *)

Lemma mem_In k l : mem k l = true <-> In k l.
Proof.
  unfold mem. rewrite existsb_exists. split.
  - intros (x & Hx & He). apply String.eqb_eq in He. now subst.
  - intros H. exists k. split; [assumption | apply String.eqb_refl].
Qed.

Lemma mem_false k l : mem k l = false <-> ~ In k l.
Proof.
  rewrite <- mem_In. destruct (mem k l); split; intros H; congruence.
Qed.

Lemma dict_get_set k v c d :
  dict_get c (dict_set k v d) = if String.eqb c k then Some v else dict_get c d.
Proof.
  induction d as [|[k' v'] d IH]; simpl.
  - now destruct (String.eqb c k).
  - destruct (String.eqb k k') eqn:E; simpl.
    + apply String.eqb_eq in E. subst k'. now destruct (String.eqb c k).
    + rewrite IH. destruct (String.eqb c k') eqn:E'; [|reflexivity].
      apply String.eqb_eq in E'. subst k'.
      now rewrite String.eqb_sym, E.
Qed.

Lemma dict_get_None k d : dict_get k d = None <-> ~ In k (keys d).
Proof.
  induction d as [|[k' v'] d IH]; simpl.
  - tauto.
  - destruct (String.eqb k k') eqn:E.
    + apply String.eqb_eq in E. subst. split; [discriminate | tauto].
    + apply String.eqb_neq in E. rewrite IH. split.
      * intros H [H'|H']; [congruence | tauto].
      * tauto.
Qed.

Lemma dict_get_Some_In k d v : dict_get k d = Some v -> In k (keys d).
Proof.
  intros H. destruct (in_dec string_dec k (keys d)) as [Hi|Hn]; [assumption|].
  apply dict_get_None in Hn. congruence.
Qed.

Lemma keys_dict_set k v d :
  keys (dict_set k v d) = if mem k (keys d) then keys d else keys d ++ [k].
Proof.
  induction d as [|[k' v'] d IH]; simpl; [reflexivity|].
  unfold mem in *. simpl. destruct (String.eqb k k') eqn:E; simpl.
  - reflexivity.
  - rewrite IH. fold (keys d). now destruct (existsb (String.eqb k) (keys d)).
Qed.

Lemma keys_dict_set_In k v d : In k (keys d) -> keys (dict_set k v d) = keys d.
Proof. intros H. rewrite keys_dict_set. apply mem_In in H. now rewrite H. Qed.

Lemma In_keys_dict_set k v c d :
  In c (keys (dict_set k v d)) <-> c = k \/ In c (keys d).
Proof.
  rewrite keys_dict_set. destruct (mem k (keys d)) eqn:E.
  - apply mem_In in E. split; [tauto | intros [->|H]; assumption].
  - rewrite in_app_iff. simpl. intuition congruence.
Qed.

Lemma NoDup_keys_dict_set k v d :
  NoDup (keys d) -> NoDup (keys (dict_set k v d)).
Proof.
  intros H. rewrite keys_dict_set. destruct (mem k (keys d)) eqn:E; [assumption|].
  apply mem_false in E. apply NoDup_app; repeat split.
  - assumption.
  - intros x Hx Hx'. apply list_elem_of_In in Hx, Hx'. simpl in Hx'.
    destruct Hx' as [<-|[]]. contradiction.
  - apply NoDup_singleton.
Qed.

Lemma NoDup_keys_dict_of_pairs l : NoDup (keys (dict_of_pairs l)).
Proof.
  unfold dict_of_pairs.
  assert (G : forall d, NoDup (keys d) ->
    NoDup (keys (fold_left (fun d kv => dict_set (fst kv) (snd kv) d) l d))).
  { induction l as [|kv l IH]; intros d Hd; simpl; [assumption|].
    apply IH, NoDup_keys_dict_set, Hd. }
  apply G. apply NoDup_nil_2.
Qed.

(** ** Rows and frames *)

Lemma row_lookup_In cols row c :
  In c cols -> List.length row = List.length cols ->
  exists x, row_lookup cols row c = Some x.
Proof.
  revert row. induction cols as [|c' cols IH]; intros row Hin Hlen; [inversion Hin|].
  destruct row as [|x row]; [discriminate|]. simpl.
  destruct (String.eqb c c') eqn:E; [eauto|].
  apply String.eqb_neq in E. destruct Hin as [->|Hin]; [congruence|].
  apply IH; [assumption | simpl in Hlen; lia].
Qed.

Lemma length_reindex cols cols' row :
  List.length (reindex cols cols' row) = List.length cols'.
Proof. unfold reindex. apply length_map. Qed.

Lemma reindex_id cols row :
  NoDup cols -> List.length row = List.length cols -> reindex cols cols row = row.
Proof.
  revert row. induction cols as [|c cols IH]; intros row Hnd Hlen.
  - destruct row; [reflexivity | discriminate].
  - destruct row as [|x row]; [discriminate|].
    apply NoDup_cons in Hnd as [Hc Hnd]. unfold reindex. simpl.
    rewrite String.eqb_refl. simpl. f_equal.
    transitivity (reindex cols cols row); [|apply IH; [assumption | simpl in Hlen; lia]].
    unfold reindex. apply map_ext_in. intros c' Hc'.
    destruct (String.eqb c' c) eqn:E; [|reflexivity].
    apply String.eqb_eq in E. subst c'. apply list_elem_of_In in Hc'. contradiction.
Qed.

Lemma cells_of_values_total vs :
  forallb cell_ok vs = true -> cells_of_values vs = Ok (map cell_total vs).
Proof.
  induction vs as [|v vs IH]; simpl; [reflexivity|].
  intros H. apply andb_true_iff in H as [Hv Hvs]. rewrite (IH Hvs).
  unfold cell_ok, cell_total in *. destruct (cell_of_jvalue v); [reflexivity | discriminate].
Qed.

Lemma cells_of_values_raise vs :
  forallb cell_ok vs = false -> cells_of_values vs = Raise ValueError.
Proof.
  induction vs as [|v vs IH]; simpl; [discriminate|].
  intros H. apply andb_false_iff in H. unfold cell_ok in H.
  destruct v as [a|[|a [|b items]]]; simpl in *.
  - destruct H as [H|H]; [discriminate|]. now rewrite (IH H).
  - reflexivity.
  - destruct H as [H|H]; [discriminate|]. now rewrite (IH H).
  - reflexivity.
Qed.

Lemma df_of_dict_ok d :
  frame_ok d = true ->
  df_of_dict d = Ok (mkDF (keys d) [map cell_total (map snd d)]).
Proof.
  intros H. unfold df_of_dict. now rewrite (cells_of_values_total _ H).
Qed.

Lemma row_lookup_dict d c :
  row_lookup (keys d) (map cell_total (map snd d)) c = option_map cell_total (dict_get c d).
Proof.
  induction d as [|[k v] d IH]; simpl; [reflexivity|].
  destruct (String.eqb c k); [reflexivity | apply IH].
Qed.

Lemma reindex_dict d cols :
  reindex (keys d) cols (map cell_total (map snd d))
  = map (fun c => value_cell (dict_get c d)) cols.
Proof.
  unfold reindex. apply map_ext. intros c. rewrite row_lookup_dict.
  now destruct (dict_get c d).
Qed.

Lemma frame_ok_dict_set k a d :
  frame_ok d = true -> frame_ok (dict_set k (JAtom a) d) = true.
Proof.
  unfold frame_ok. induction d as [|[k' v'] d IH]; simpl; [reflexivity|].
  intros H. apply andb_true_iff in H as [Hv Hd].
  destruct (String.eqb k k'); simpl.
  - now rewrite Hd.
  - now rewrite Hv, (IH Hd).
Qed.

Lemma filter_all {A} (f : A -> bool) l :
  (forall x, In x l -> f x = true) -> List.filter f l = l.
Proof.
  induction l as [|x l IH]; intros H; simpl; [reflexivity|].
  rewrite (H x) by now left. f_equal. apply IH. intros y Hy. apply H. now right.
Qed.

Lemma filter_none {A} (f : A -> bool) l :
  (forall x, In x l -> f x = false) -> List.filter f l = [].
Proof.
  induction l as [|x l IH]; intros H; simpl; [reflexivity|].
  rewrite (H x) by now left. apply IH. intros y Hy. apply H. now right.
Qed.

Lemma df_select_ok df cols :
  (forall c, In c cols -> In c (columns df)) ->
  df_select df cols = Ok (mkDF cols (map (reindex (columns df) cols) (rows df))).
Proof.
  intros H. unfold df_select. rewrite filter_none; [reflexivity|].
  intros c Hc. apply negb_false_iff, mem_In, H, Hc.
Qed.

Lemma pd_concat_same a b :
  columns a = columns b -> pd_concat a b = mkDF (columns a) (rows a ++ rows b).
Proof. intros H. unfold pd_concat. now destruct (decide (columns a = columns b)). Qed.

(** ** The loop of handle_multiple_results *)

Lemma dict_get_overlay prefix m p t row c :
  dict_get c (overlay prefix m p t row) =
  if String.eqb c "status" then Some (JAtom (SStr (status_of p)))
  else if String.eqb c "metric" then Some (JAtom t)
  else if String.eqb c "performance" then Some (JAtom p)
  else if String.eqb c "model" then Some (JAtom (SStr (prefix +:+ "_" +:+ py_str m)))
  else dict_get c row.
Proof. unfold overlay. now rewrite !dict_get_set. Qed.

Lemma dict_get_overlay_other prefix m p t row c :
  ~ In c result_keys -> dict_get c (overlay prefix m p t row) = dict_get c row.
Proof.
  intros H. rewrite dict_get_overlay.
  destruct (String.eqb c "status") eqn:E1;
    [apply String.eqb_eq in E1; subst c; exfalso; apply H; simpl; tauto|].
  destruct (String.eqb c "metric") eqn:E2;
    [apply String.eqb_eq in E2; subst c; exfalso; apply H; simpl; tauto|].
  destruct (String.eqb c "performance") eqn:E3;
    [apply String.eqb_eq in E3; subst c; exfalso; apply H; simpl; tauto|].
  destruct (String.eqb c "model") eqn:E4;
    [apply String.eqb_eq in E4; subst c; exfalso; apply H; simpl; tauto|].
  reflexivity.
Qed.

Lemma In_keys_overlay prefix m p t row c :
  In c (keys (overlay prefix m p t row)) <-> In c result_keys \/ In c (keys row).
Proof.
  unfold overlay. rewrite !In_keys_dict_set. simpl. intuition congruence.
Qed.

Lemma keys_overlay_stable prefix m p t row :
  (forall k, In k result_keys -> In k (keys row)) ->
  keys (overlay prefix m p t row) = keys row.
Proof.
  intros H. unfold overlay.
  rewrite keys_dict_set_In; rewrite ?In_keys_dict_set;
    [| right; right; right; apply H; simpl; tauto].
  rewrite keys_dict_set_In; rewrite ?In_keys_dict_set;
    [| right; right; apply H; simpl; tauto].
  rewrite keys_dict_set_In; rewrite ?In_keys_dict_set;
    [| right; apply H; simpl; tauto].
  apply keys_dict_set_In, H. simpl. tauto.
Qed.

Lemma frame_ok_overlay prefix m p t row :
  frame_ok row = true -> frame_ok (overlay prefix m p t row) = true.
Proof. intros H. unfold overlay. now repeat apply frame_ok_dict_set. Qed.

Lemma NoDup_keys_overlay prefix m p t row :
  NoDup (keys row) -> NoDup (keys (overlay prefix m p t row)).
Proof. intros H. unfold overlay. now repeat apply NoDup_keys_dict_set. Qed.

Lemma fill_row_ok prefix header r row m p t :
  row_lookup header r "model" = Some m ->
  row_lookup header r "performance" = Some p ->
  row_lookup header r "metric" = Some t ->
  fill_row (Some prefix) header r row = Ok (overlay prefix m p t row).
Proof.
  intros Hm Hp Ht. unfold fill_row, record_get. rewrite Hm, Hp, Ht. reflexivity.
Qed.

Lemma new_cell_eq prefix header common r m p t row c :
  row_lookup header r "model" = Some m ->
  row_lookup header r "performance" = Some p ->
  row_lookup header r "metric" = Some t ->
  (forall c, ~ In c result_keys -> dict_get c row = dict_get c common) ->
  value_cell (dict_get c (overlay prefix m p t row)) = new_cell prefix header common r c.
Proof.
  intros Hm Hp Ht H. unfold new_cell. rewrite Hm, Hp, Ht, dict_get_overlay. simpl.
  destruct (String.eqb c "status") eqn:E1; [reflexivity|].
  destruct (String.eqb c "metric") eqn:E2; [reflexivity|].
  destruct (String.eqb c "performance") eqn:E3; [reflexivity|].
  destruct (String.eqb c "model") eqn:E4; [reflexivity|].
  rewrite H; [reflexivity|].
  apply String.eqb_neq in E1, E2, E3, E4. simpl. intuition congruence.
Qed.

(** The loop once the shared dict holds the four result keys and the
    frame built so far has the dict's keys as columns: every further
    record stacks one row. *)
Lemma add_results_stacked prefix header common cols :
  forall records row final,
    Forall (has_fields header) records ->
    keys row = columns final ->
    (forall k, In k result_keys -> In k (keys row)) ->
    frame_ok row = true ->
    (forall c, ~ In c result_keys -> dict_get c row = dict_get c common) ->
    exists final',
      add_results (Some prefix) header records row final = Ok final' /\
      columns final' = columns final /\
      map (reindex (columns final') cols) (rows final')
      = map (reindex (columns final) cols) (rows final)
        ++ map (new_row prefix header common cols) records.
Proof.
  induction records as [|r records IH]; intros row final Hrec Hk H4 Hok Hc.
  - exists final. simpl. now rewrite app_nil_r.
  - apply Forall_cons in Hrec as [(m & p & t & Hm & Hp & Ht) Hrec].
    simpl. rewrite (fill_row_ok _ _ _ _ _ _ _ Hm Hp Ht). simpl.
    set (row' := overlay prefix m p t row).
    assert (Hk' : keys row' = keys row) by now apply keys_overlay_stable.
    assert (Hok' : frame_ok row' = true) by now apply frame_ok_overlay.
    rewrite (df_of_dict_ok _ Hok'). simpl.
    rewrite pd_concat_same by (simpl; congruence).
    destruct (IH row' (mkDF (columns final) (rows final ++ [map cell_total (map snd row')])))
      as (final' & Hrun & Hcols & Hrows).
    + assumption.
    + simpl. congruence.
    + intros k Hin. rewrite Hk'. now apply H4.
    + assumption.
    + intros c Hn. unfold row'. rewrite dict_get_overlay_other by assumption. now apply Hc.
    + exists final'. split; [assumption|]. split; [assumption|].
      rewrite Hrows. simpl. rewrite map_app, <- app_assoc. simpl. do 3 f_equal.
      rewrite <- Hk, <- Hk', reindex_dict. unfold new_row. apply map_ext. intros c.
      unfold row'. now apply new_cell_eq.
Qed.

Lemma add_results_from_common prefix header common cols r records :
  NoDup (keys common) ->
  frame_ok common = true ->
  Forall (has_fields header) (r :: records) ->
  exists final,
    add_results (Some prefix) header (r :: records) common empty_frame = Ok final /\
    (forall c, In c (columns final) <-> In c result_keys \/ In c (keys common)) /\
    map (reindex (columns final) cols) (rows final)
    = map (new_row prefix header common cols) (r :: records).
Proof.
  intros Hnd Hok Hrec.
  apply Forall_cons in Hrec as [(m & p & t & Hm & Hp & Ht) Hrec].
  simpl. rewrite (fill_row_ok _ _ _ _ _ _ _ Hm Hp Ht). simpl.
  set (row' := overlay prefix m p t common).
  assert (Hok' : frame_ok row' = true) by now apply frame_ok_overlay.
  assert (Hnd' : NoDup (keys row')) by now apply NoDup_keys_overlay.
  rewrite (df_of_dict_ok _ Hok'). simpl.
  set (cells := map cell_total (map snd row')).
  assert (Hcat : pd_concat empty_frame (mkDF (keys row') [cells]) = mkDF (keys row') [cells]).
  { unfold pd_concat. simpl. destruct (decide ([] = keys row')) as [E|_].
    - exfalso. assert (Hin : In "model" (keys row'))
        by (apply In_keys_overlay; left; simpl; tauto).
      rewrite <- E in Hin. inversion Hin.
    - rewrite filter_all by reflexivity. f_equal. f_equal.
      apply reindex_id; [assumption|]. unfold cells, keys. now rewrite !length_map. }
  rewrite Hcat.
  destruct (add_results_stacked prefix header common cols records row'
              (mkDF (keys row') [cells])) as (final & Hrun & Hcols & Hrows).
  - assumption.
  - reflexivity.
  - intros k Hk. apply In_keys_overlay. now left.
  - assumption.
  - intros c Hc. now apply dict_get_overlay_other.
  - exists final. split; [assumption|]. split.
    + intros c. rewrite Hcols. simpl. apply In_keys_overlay.
    + rewrite Hrows. simpl. f_equal. unfold cells. rewrite reindex_dict.
      unfold new_row. apply map_ext. intros c. now apply new_cell_eq.
Qed.

(** ** The header checks *)

Lemma check_header_ok header :
  check_header header = Ok tt <->
  List.length header = 3%nat /\ forall h, In h headings -> In h header.
Proof.
  unfold check_header. destruct (Nat.eqb_spec (List.length header) 3) as [E|E].
  - unfold headings. simpl.
    destruct (mem "model" header) eqn:E1;
      [apply mem_In in E1 | apply mem_false in E1].
    2:{ split; [discriminate|]. intros [_ H]. exfalso. apply E1, H. simpl. tauto. }
    destruct (mem "performance" header) eqn:E2;
      [apply mem_In in E2 | apply mem_false in E2].
    2:{ split; [discriminate|]. intros [_ H]. exfalso. apply E2, H. simpl. tauto. }
    destruct (mem "metric" header) eqn:E3;
      [apply mem_In in E3 | apply mem_false in E3].
    2:{ split; [discriminate|]. intros [_ H]. exfalso. apply E3, H. simpl. tauto. }
    split; [|reflexivity]. intros _. split; [assumption|].
    intros h [<-|[<-|[<-|[]]]]; assumption.
  - split; [discriminate | tauto].
Qed.

Lemma check_header_has_fields header r :
  check_header header = Ok tt ->
  List.length r = List.length header ->
  has_fields header r.
Proof.
  intros H Hlen. apply check_header_ok in H as [_ H].
  destruct (row_lookup_In header r "model") as [m Hm];
    [apply H; simpl; tauto | assumption |].
  destruct (row_lookup_In header r "performance") as [p Hp];
    [apply H; simpl; tauto | assumption |].
  destruct (row_lookup_In header r "metric") as [t Ht];
    [apply H; simpl; tauto | assumption |].
  now exists m, p, t.
Qed.

(** ** flatten_tags *)

Lemma flatten_tags_keys d d' : flatten_tags d = Ok d' -> keys d' = keys d.
Proof.
  unfold flatten_tags. destruct (dict_get "tags" d) as [[a|items]|] eqn:E; intros H.
  - now inversion H.
  - inversion H. apply keys_dict_set_In. eapply dict_get_Some_In, E.
  - discriminate.
Qed.

(** ** Concatenating one row *)

Lemma row_lookup_map (f : string -> scalar) cols c :
  In c cols -> row_lookup cols (map f cols) c = Some (f c).
Proof.
  induction cols as [|c' cols IH]; intros Hin; [inversion Hin|]. simpl.
  destruct (String.eqb c c') eqn:E.
  - apply String.eqb_eq in E. now subst.
  - apply String.eqb_neq in E. destruct Hin as [->|Hin]; [congruence | now apply IH].
Qed.

Lemma aligned_row_keys d : NoDup (keys d) -> aligned_row d (keys d) = map cell_total (map snd d).
Proof.
  intros Hnd. unfold aligned_row. rewrite <- reindex_dict.
  apply reindex_id; [assumption|]. unfold keys. now rewrite !length_map.
Qed.

Lemma pd_concat_one df d :
  NoDup (keys d) ->
  columns (pd_concat df (one_row d)) = union_columns (columns df) (keys d) /\
  exists old,
    List.length old = List.length (rows df) /\
    rows (pd_concat df (one_row d))
    = old ++ [aligned_row d (union_columns (columns df) (keys d))].
Proof.
  intros Hnd. unfold pd_concat, one_row. simpl.
  destruct (decide (columns df = keys d)) as [E|E]; simpl.
  - assert (Hu : union_columns (columns df) (keys d) = keys d).
    { unfold union_columns. rewrite E, filter_none, app_nil_r; [reflexivity|].
      intros c Hc. now apply negb_false_iff, mem_In. }
    rewrite Hu. split; [congruence|]. exists (rows df). split; [reflexivity|].
    now rewrite aligned_row_keys.
  - split; [reflexivity|].
    exists (map (reindex (columns df) (union_columns (columns df) (keys d))) (rows df)).
    split; [apply length_map|]. fold (union_columns (columns df) (keys d)).
    now rewrite reindex_dict.
Qed.

Lemma rectangular_pd_concat a b :
  rectangular a -> rectangular b -> rectangular (pd_concat a b).
Proof.
  unfold rectangular, pd_concat. intros Ha Hb.
  destruct (decide (columns a = columns b)) as [E|E]; simpl.
  - apply Forall_app. split; [assumption|]. now rewrite E.
  - apply Forall_app. split; apply Forall_forall; intros r Hr;
      apply list_elem_of_In, in_map_iff in Hr as (r' & <- & _); apply length_reindex.
Qed.

Lemma rectangular_one_row d : rectangular (one_row d).
Proof.
  unfold rectangular, one_row. simpl. constructor; [|constructor].
  unfold keys. now rewrite !length_map.
Qed.

Lemma flatten_tags_other d d' k :
  flatten_tags d = Ok d' -> k <> "tags" -> dict_get k d' = dict_get k d.
Proof.
  unfold flatten_tags. destruct (dict_get "tags" d) as [[a|items]|]; intros H Hk.
  - now inversion H.
  - inversion H. rewrite dict_get_set.
    destruct (String.eqb k "tags") eqn:E; [|reflexivity].
    apply String.eqb_eq in E. contradiction.
  - discriminate.
Qed.

Lemma In_union_columns cols ks c :
  In c (union_columns cols ks) <-> In c cols \/ In c ks.
Proof.
  unfold union_columns. rewrite in_app_iff, filter_In, negb_true_iff, mem_false.
  destruct (in_dec string_dec c cols); tauto.
Qed.

Lemma pd_concat_one_eq df d :
  NoDup (keys d) ->
  exists old,
    List.length old = List.length (rows df) /\
    pd_concat df (one_row d)
    = mkDF (union_columns (columns df) (keys d))
        (old ++ [aligned_row d (union_columns (columns df) (keys d))]).
Proof.
  intros Hnd. destruct (pd_concat_one df d Hnd) as (Hc & old & Hlen & Hr).
  exists old. split; [assumption|].
  destruct (pd_concat df (one_row d)) as [cs rs]. simpl in *. now subst.
Qed.

Lemma new_cell_model prefix header common r m :
  row_lookup header r "model" = Some m ->
  new_cell prefix header common r "model" = SStr (prefix +:+ "_" +:+ py_str m).
Proof. intros H. unfold new_cell. rewrite H. reflexivity. Qed.

Lemma new_cell_status prefix header common r p :
  row_lookup header r "performance" = Some p ->
  new_cell prefix header common r "status" = SStr (status_of p).
Proof. intros H. unfold new_cell. rewrite H. reflexivity. Qed.

Lemma status_of_cases p :
  (status_of p = "SUCCESS" <-> p <> SNone /\ p <> SNaN)
  /\ (status_of p = "FAILURE" <-> p = SNone \/ p = SNaN).
Proof.
  destruct p; unfold status_of; simpl; split; split;
    try discriminate; try tauto; try (intros [H1 H2]; congruence);
    try (intros [H|H]; discriminate); try (intros _; split; discriminate).
Qed.

Lemma check_header_result header :
  check_header header =
  if (List.length header =? 3)%nat then
    match first_missing header with
    | Some heading => Raise (RuntimeError (missing_column_msg heading))
    | None => Ok tt
    end
  else Raise (RuntimeError three_columns_msg).
Proof.
  unfold check_header, first_missing, headings. simpl.
  destruct (List.length header =? 3)%nat; [|reflexivity].
  destruct (mem "model" header); [|reflexivity].
  destruct (mem "performance" header); [|reflexivity].
  destruct (mem "metric" header); reflexivity.
Qed.

Lemma first_missing_Some header heading :
  first_missing header = Some heading -> In heading headings /\ ~ In heading header.
Proof.
  unfold first_missing. intros H. apply find_some in H as [Hin Hm].
  split; [assumption|]. now apply mem_false, negb_true_iff.
Qed.

Lemma NoDup_headings : NoDup headings.
Proof.
  unfold headings.
  repeat (apply NoDup_cons_2;
          [rewrite list_elem_of_In; simpl; intuition discriminate|]).
  apply NoDup_nil_2.
Qed.

Lemma check_header_Permutation header :
  check_header header = Ok tt <-> Permutation header headings.
Proof.
  rewrite check_header_ok. split.
  - intros [Hlen Hall]. symmetry. apply submseteq_length_Permutation.
    + apply NoDup_submseteq; [apply NoDup_headings|].
      intros x Hx. apply list_elem_of_In, Hall, list_elem_of_In, Hx.
    + rewrite Hlen. reflexivity.
  - intros Hp. split.
    + now rewrite (Permutation_length Hp).
    + intros h Hh. eapply Permutation_in; [symmetry; exact Hp | exact Hh].
Qed.

Lemma covered_columns (cols ks : list string) :
  forallb (fun c => mem c result_keys || mem c ks) cols = true ->
  forall c, In c cols -> In c result_keys \/ In c ks.
Proof.
  intros H c Hc. rewrite forallb_forall in H. specialize (H c Hc).
  apply orb_true_iff in H as [H|H]; apply mem_In in H; tauto.
Qed.

Lemma io_bind_inv {A B} (m : io A) (k : A -> io B) st b st' :
  io_bind m k st = (Ok b, st') ->
  exists a st1, m st = (Ok a, st1) /\ k a st1 = (Ok b, st').
Proof.
  unfold io_bind. destruct (m st) as [[a|e] st1]; [eauto | discriminate].
Qed.

Lemma df_select_inv df cols sel :
  df_select df cols = Ok sel ->
  sel = mkDF cols (map (reindex (columns df) cols) (rows df)).
Proof.
  unfold df_select.
  destruct (List.filter (fun c => negb (mem c (columns df))) cols); intros H;
    now inversion H.
Qed.

Lemma csv_lines_rectangular df :
  rectangular df ->
  Forall (fun line => List.length line = List.length (columns df)) (to_csv_fields df).
Proof.
  intros H. unfold to_csv_fields. constructor; [reflexivity|].
  apply Forall_forall. intros line Hl.
  apply list_elem_of_In, in_map_iff in Hl as (r & <- & Hr). rewrite length_map.
  unfold rectangular in H. rewrite Forall_forall in H. apply H, list_elem_of_In, Hr.
Qed.

Lemma union_columns_same cols ks :
  (forall k, In k ks -> In k cols) <-> union_columns cols ks = cols.
Proof.
  unfold union_columns. split.
  - intros H. rewrite filter_none, app_nil_r; [reflexivity|].
    intros k Hk. now apply negb_false_iff, mem_In, H.
  - intros H k Hk. destruct (in_dec string_dec k cols) as [|Hn]; [assumption|].
    assert (Hf : In k (List.filter (fun c => negb (mem c cols)) ks)).
    { apply filter_In. split; [assumption|]. now apply negb_true_iff, mem_false. }
    assert (He : List.filter (fun c => negb (mem c cols)) ks = []).
    { apply (app_inv_head cols). now rewrite app_nil_r. }
    rewrite He in Hf. inversion Hf.
Qed.

(** * The claims on pure code *)

(** C8: [flatten_tags] is idempotent on the tags field.  Applied twice it
    does what it does once; a record whose tags value is no list (a
    string, in particular) is left as it is; a tags list is replaced, in
    place, by the comma-joined string of its elements, every other entry
    being kept; the list of "a" and "b" becomes the string "a,b". *)
Theorem flatten_tags_idempotent (perf_entry : dict) :
  obind (flatten_tags perf_entry) flatten_tags = flatten_tags perf_entry
  /\ (forall a, dict_get "tags" perf_entry = Some (JAtom a) ->
        flatten_tags perf_entry = Ok perf_entry)
  /\ (forall items, dict_get "tags" perf_entry = Some (JList items) ->
        exists flat,
          flatten_tags perf_entry = Ok flat
          /\ dict_get "tags" flat = Some (JAtom (SStr (join "," (map py_str items))))
          /\ keys flat = keys perf_entry
          /\ forall k, k <> "tags" -> dict_get k flat = dict_get k perf_entry)
  /\ flatten_tags [("tags", JList [SStr "a"; SStr "b"])]
     = Ok [("tags", JAtom (SStr "a,b"))].
Proof.
  repeat split.
  - destruct (flatten_tags perf_entry) as [flat|e] eqn:Hf; simpl; [|reflexivity].
    unfold flatten_tags in Hf |- *.
    destruct (dict_get "tags" perf_entry) as [[a|items]|] eqn:E.
    + inversion Hf. subst flat. now rewrite E.
    + inversion Hf. now rewrite dict_get_set.
    + discriminate.
  - intros a E. unfold flatten_tags. now rewrite E.
  - intros items E.
    exists (dict_set "tags" (JAtom (SStr (join "," (map py_str items)))) perf_entry).
    assert (Hf : flatten_tags perf_entry
                 = Ok (dict_set "tags" (JAtom (SStr (join "," (map py_str items)))) perf_entry))
      by (unfold flatten_tags; now rewrite E).
    split; [exact Hf|]. split; [now rewrite dict_get_set|].
    split; [exact (flatten_tags_keys _ _ Hf)|].
    intros k Hk. exact (flatten_tags_other _ _ _ Hf Hk).
Qed.

(** C9: [Console.sh] on a nonzero exit code.  With [can_fail] the
    stripped output is returned whatever the exit code.  Without it and
    with no secret, a RuntimeError names the command and the exit code.
    With a secret that is a non-empty string, the RuntimeError names that
    string instead of the command.  With [secret=True], the value its
    annotation asks for, building the message fails: the call raises a
    TypeError, and no error naming a placeholder and the exit code. *)
Theorem Console_sh_nonzero_exit (command outs : string) (returncode : Z)
  (secret : Console.secret_arg) :
  returncode <> 0%Z ->
  Console.sh command true secret (Console.Exited outs returncode) = Ok (strip outs)
  /\ (Console.truth secret = false ->
      Console.sh command false secret (Console.Exited outs returncode)
      = Raise (RuntimeError ("Subprocess '" +:+ command
                             +:+ "' failed with exit code " +:+ str_of_Z returncode)))
  /\ (forall placeholder,
        secret = Console.SecretStr placeholder -> Console.truth secret = true ->
        Console.sh command false secret (Console.Exited outs returncode)
        = Raise (RuntimeError ("Subprocess '" +:+ placeholder
                               +:+ "' failed with exit code " +:+ str_of_Z returncode)))
  /\ Console.sh command false (Console.SecretBool true) (Console.Exited outs returncode)
     = Raise TypeError.
Proof.
  intros Hrc. apply Z.eqb_neq in Hrc. unfold Console.sh. rewrite Hrc. simpl.
  repeat split.
  - intros Hs. now rewrite Hs.
  - intros placeholder -> Hs. now rewrite Hs.
Qed.

(** * The result aggregator *)

Section AggregatorProperties.

Context `{decoders : Decoders}.

(** On an artifact that passes the header checks and whose common
    information supplies every other column of the report, the call
    succeeds; it stacks one [new_row] per record under the report and
    writes exactly those rows to the side file. *)
Lemma handle_multiple_results_ok df mr ci prefix st text mdf jtext members common :
  st !! mr = Some text ->
  parse_csv text = Some mdf ->
  check_header (map strip (columns mdf)) = Ok tt ->
  rectangular mdf ->
  rows mdf <> [] ->
  st !! ci = Some jtext ->
  parse_json jtext = Some members ->
  flatten_tags (dict_of_pairs members) = Ok common ->
  frame_ok common = true ->
  (forall c, In c (columns df) -> In c result_keys \/ In c (keys common)) ->
  let added :=
    map (new_row prefix (map strip (columns mdf)) common (columns df)) (rows mdf) in
  handle_multiple_results df mr (Some ci) (Some prefix) st
  = (Ok (mkDF (columns df) (rows df ++ added)),
     <[perf_entry_csv := csv_text (to_csv_fields (mkDF (columns df) added))]> st).
Proof.
  intros Hmr Hcsv Hhdr Hrect Hne Hci Hjson Hflat Hok Hcols added.
  assert (Hnd : NoDup (keys common)).
  { rewrite (flatten_tags_keys _ _ Hflat). apply NoDup_keys_dict_of_pairs. }
  assert (Hrec : Forall (has_fields (map strip (columns mdf))) (rows mdf)).
  { eapply Forall_impl; [exact Hrect|]. intros r Hr. simpl in Hr.
    apply check_header_has_fields; [assumption|]. now rewrite length_map. }
  destruct (rows mdf) as [|r records] eqn:Erows; [congruence|].
  destruct (add_results_from_common prefix (map strip (columns mdf)) common
              (columns df) r records Hnd Hok Hrec) as (final & Hrun & Hfin & Hrows).
  unfold handle_multiple_results, io_bind, read_csv, read_json, lift.
  rewrite Hmr, Hcsv. simpl. rewrite Hhdr, Hci, Hjson, Hflat, Erows, Hrun.
  rewrite df_select_ok by (intros c Hc; apply Hfin, Hcols, Hc).
  rewrite Hrows. unfold perf_entry_df_to_csv, to_csv, io_ret.
  fold added. now rewrite pd_concat_same.
Qed.

Lemma handle_single_result_ok df p st text members d :
  st !! p = Some text ->
  parse_json text = Some members ->
  flatten_tags (dict_of_pairs members) = Ok d ->
  frame_ok d = true ->
  handle_single_result df p st
  = (Ok (pd_concat df (one_row d)),
     <[perf_entry_csv := csv_text (to_csv_fields (one_row d))]> st).
Proof.
  intros Hp Hjson Hflat Hok.
  unfold handle_single_result, perf_entry_dict_to_csv, io_bind, read_json, lift.
  rewrite Hp, Hjson, Hflat, (df_of_dict_ok _ Hok). simpl.
  now rewrite (df_of_dict_ok _ Hok).
Qed.

Lemma load_report_state perf_csv st r st' :
  load_report perf_csv st = (r, st') -> st' = st.
Proof.
  unfold load_report, io_bind, read_csv, io_ret.
  destruct (st !! perf_csv) as [text|]; [destruct (parse_csv text)|];
    intros H; now inversion H.
Qed.

(** C10: [handle_exception_result] and [handle_single_result] are the same
    transform: on every table, artifact path and file system they give
    the same result and leave the same files.  When the artifact decodes
    to a JSON object that flattens to [d] and fits a one-row frame, both
    write that row to the side file and return the table with the union
    of the columns and one more row, [d] laid out along them; the status
    in that row is the artifact's own. *)
Theorem handle_exception_result_as_single (perf_csv_df : DataFrame)
  (artifact : string) (st : fs) :
  handle_exception_result perf_csv_df artifact st
  = handle_single_result perf_csv_df artifact st
  /\ forall text members d,
       st !! artifact = Some text ->
       parse_json text = Some members ->
       flatten_tags (dict_of_pairs members) = Ok d ->
       frame_ok d = true ->
       let cols := union_columns (columns perf_csv_df) (keys d) in
       exists old,
         List.length old = List.length (rows perf_csv_df)
         /\ handle_exception_result perf_csv_df artifact st
            = (Ok (mkDF cols (old ++ [aligned_row d cols])),
               <[perf_entry_csv := csv_text (to_csv_fields (one_row d))]> st)
         /\ forall status,
              dict_get "status" (dict_of_pairs members) = Some (JAtom status) ->
              row_lookup cols (aligned_row d cols) "status" = Some status.
Proof.
  split; [reflexivity|].
  intros text members d Hp Hjson Hflat Hok cols.
  assert (Hnd : NoDup (keys d)).
  { rewrite (flatten_tags_keys _ _ Hflat). apply NoDup_keys_dict_of_pairs. }
  destruct (pd_concat_one_eq perf_csv_df d Hnd) as (old & Hlen & Hcat).
  exists old. split; [assumption|]. split.
  - change (handle_exception_result perf_csv_df artifact st)
      with (handle_single_result perf_csv_df artifact st).
    rewrite (handle_single_result_ok _ _ _ _ _ _ Hp Hjson Hflat Hok).
    now rewrite Hcat.
  - intros status Hs.
    assert (Hd : dict_get "status" d = Some (JAtom status)).
    { rewrite (flatten_tags_other _ _ "status" Hflat); [assumption | discriminate]. }
    unfold aligned_row. rewrite row_lookup_map.
    + now rewrite Hd.
    + apply In_union_columns. right. eapply dict_get_Some_In, Hd.
Qed.

(** C7, as the code has it: [failed_result] is never consumed: changing
    it changes nothing, on any call.  The report is loaded before the
    dispatch: when it exists and cannot be read, the call raises the
    reader's error, whatever is supplied, and writes nothing.  Once the
    report is loaded, [update_perf_csv] dispatches on the first of
    [multiple_results], [single_result], [exception_result] that is
    supplied, in that order, and a call with none of the three supplied
    raises the missing-argument error and writes nothing, whether or not
    [failed_result] is supplied. *)
Theorem update_perf_csv_dispatch
  (single_result exception_result failed_result multiple_results : option string)
  (perf_csv : string) (model_name common_info : option string) (st : fs) :
  (forall other,
     update_perf_csv single_result exception_result other multiple_results
       perf_csv model_name common_info st
     = update_perf_csv single_result exception_result failed_result multiple_results
         perf_csv model_name common_info st)
  /\ (forall e,
        load_report perf_csv st = (Raise e, st) ->
        update_perf_csv single_result exception_result failed_result multiple_results
          perf_csv model_name common_info st
        = (Raise e, st))
  /\ forall perf_csv_df,
  load_report perf_csv st = (Ok perf_csv_df, st) ->
  (forall p, supplied multiple_results = Some p ->
        update_perf_csv single_result exception_result failed_result multiple_results
          perf_csv model_name common_info st
        = io_bind (handle_multiple_results perf_csv_df p common_info model_name)
            (fun df => to_csv df perf_csv) st)
  /\ (forall p, supplied multiple_results = None -> supplied single_result = Some p ->
        update_perf_csv single_result exception_result failed_result multiple_results
          perf_csv model_name common_info st
        = io_bind (handle_single_result perf_csv_df p)
            (fun df => to_csv df perf_csv) st)
  /\ (forall p, supplied multiple_results = None -> supplied single_result = None ->
        supplied exception_result = Some p ->
        update_perf_csv single_result exception_result failed_result multiple_results
          perf_csv model_name common_info st
        = io_bind (handle_exception_result perf_csv_df p)
            (fun df => to_csv df perf_csv) st)
  /\ (supplied multiple_results = None -> supplied single_result = None ->
      supplied exception_result = None ->
      update_perf_csv single_result exception_result failed_result multiple_results
        perf_csv model_name common_info st
      = (Raise (RuntimeError no_result_msg), st))
  /\ update_perf_csv None None failed_result None perf_csv model_name common_info st
     = (Raise (RuntimeError no_result_msg), st).
Proof.
  split; [reflexivity|]. split.
  { intros e Hload. unfold update_perf_csv.
    now rewrite (io_bind_raise _ _ _ _ _ Hload). }
  intros perf_csv_df Hload.
  unfold update_perf_csv.
  rewrite (io_bind_ok _ _ _ _ _ Hload).
  repeat split.
  - intros p ->. reflexivity.
  - intros p -> ->. reflexivity.
  - intros p -> -> ->. reflexivity.
  - intros -> -> ->. reflexivity.
  - now rewrite (io_bind_ok _ _ _ _ _ Hload).
Qed.

Lemma valid_artifact_run st df mr ci prefix mdf common :
  valid_artifact st df mr ci mdf common ->
  let added := map (new_row prefix (map strip (columns mdf)) common (columns df)) (rows mdf) in
  handle_multiple_results df mr (Some ci) (Some prefix) st
  = (Ok (mkDF (columns df) (rows df ++ added)),
     <[perf_entry_csv := csv_text (to_csv_fields (mkDF (columns df) added))]> st).
Proof.
  intros (((text & Hmr & Hcsv) & Hhdr & Hrect & Hne
           & (jtext & members & Hci & Hjson & Hflat) & Hok) & Hcols).
  eapply handle_multiple_results_ok; eassumption.
Qed.

Lemma valid_artifact_fields st df mr ci mdf common i r :
  valid_artifact st df mr ci mdf common ->
  rows mdf !! i = Some r ->
  has_fields (map strip (columns mdf)) r.
Proof.
  intros ((_ & Hhdr & Hrect & _) & _) Hi.
  apply check_header_has_fields; [assumption|]. rewrite length_map.
  unfold rectangular in Hrect. rewrite Forall_lookup in Hrect. exact (Hrect i r Hi).
Qed.

(** C2: for a valid multiple-results artifact, [handle_multiple_results]
    called with the prefix [model_name] succeeds; the rows it appends
    under the report are as many as the records of the input file, in the
    order of the file; and the model field of the i-th appended row is
    [model_name], an underscore and the model of the i-th record. *)
Theorem multiple_results_rows_and_models (st : fs) (perf_csv_df : DataFrame)
  (multiple_results common_info model_name : string) (mdf : DataFrame)
  (common : dict) :
  valid_artifact st perf_csv_df multiple_results common_info mdf common ->
  exists added st',
    handle_multiple_results perf_csv_df multiple_results (Some common_info)
      (Some model_name) st
    = (Ok (mkDF (columns perf_csv_df) (rows perf_csv_df ++ added)), st')
    /\ List.length added = List.length (rows mdf)
    /\ forall i r, rows mdf !! i = Some r ->
         exists original row,
           row_lookup (map strip (columns mdf)) r "model" = Some original
           /\ added !! i = Some row
           /\ (In "model" (columns perf_csv_df) ->
               row_lookup (columns perf_csv_df) row "model"
               = Some (SStr (model_name +:+ "_" +:+ py_str original))).
Proof.
  intros Hvalid. eexists. eexists. split; [apply valid_artifact_run, Hvalid|].
  split; [apply length_map|].
  intros i r Hi.
  destruct (valid_artifact_fields _ _ _ _ _ _ _ _ Hvalid Hi) as (m & p & t & Hm & _).
  exists m. eexists. split; [exact Hm|]. split.
  - rewrite list_lookup_fmap, Hi. reflexivity.
  - intros Hin. unfold new_row. rewrite row_lookup_map by assumption.
    now rewrite (new_cell_model _ _ _ _ _ Hm).
Qed.

(** C3: on the multiple-results path the status of a row is "SUCCESS"
    exactly when the performance of its record is neither None nor NaN,
    and "FAILURE" otherwise.  This holds of the dict every pass of the
    loop builds, and of the status field of every row a valid artifact
    appends to the report. *)
Theorem multiple_results_status (st : fs) (perf_csv_df : DataFrame)
  (multiple_results common_info model_name : string) (mdf : DataFrame)
  (common : dict) :
  valid_artifact st perf_csv_df multiple_results common_info mdf common ->
  (forall performance,
     (status_of performance = "SUCCESS" <-> performance <> SNone /\ performance <> SNaN)
     /\ (status_of performance = "FAILURE" <-> performance = SNone \/ performance = SNaN))
  /\ (forall name header r row built,
        fill_row name header r row = Ok built ->
        exists performance,
          record_get header r "performance" = Ok performance
          /\ dict_get "status" built = Some (JAtom (SStr (status_of performance))))
  /\ exists added st',
       handle_multiple_results perf_csv_df multiple_results (Some common_info)
         (Some model_name) st
       = (Ok (mkDF (columns perf_csv_df) (rows perf_csv_df ++ added)), st')
       /\ forall i r, rows mdf !! i = Some r ->
            exists performance row,
              row_lookup (map strip (columns mdf)) r "performance" = Some performance
              /\ added !! i = Some row
              /\ (In "status" (columns perf_csv_df) ->
                  row_lookup (columns perf_csv_df) row "status"
                  = Some (SStr (status_of performance))).
Proof.
  intros Hvalid. split; [exact status_of_cases|]. split.
  - intros name header r row built. unfold fill_row.
    destruct name as [prefix|]; [|discriminate]. simpl.
    destruct (record_get header r "model") as [m|]; [|discriminate]. simpl.
    destruct (record_get header r "performance") as [p|]; [|discriminate]. simpl.
    destruct (record_get header r "metric") as [t|]; [|discriminate]. simpl.
    intros H. inversion H. exists p. split; [reflexivity|]. now rewrite dict_get_set.
  - eexists. eexists. split; [apply valid_artifact_run, Hvalid|].
    intros i r Hi.
    destruct (valid_artifact_fields _ _ _ _ _ _ _ _ Hvalid Hi) as (m & p & t & _ & Hp & _).
    exists p. eexists. split; [exact Hp|]. split.
    + rewrite list_lookup_fmap, Hi. reflexivity.
    + intros Hin. unfold new_row. rewrite row_lookup_map by assumption.
      now rewrite (new_cell_status _ _ _ _ _ Hp).
Qed.

Lemma handle_multiple_results_bad_header df path ci mn st text mdf e :
  st !! path = Some text ->
  parse_csv text = Some mdf ->
  check_header (map strip (columns mdf)) = Raise e ->
  handle_multiple_results df path ci mn st = (Raise e, st).
Proof.
  intros Hp Hcsv Hbad. unfold handle_multiple_results, io_bind, read_csv, lift.
  rewrite Hp, Hcsv. simpl. now rewrite Hbad.
Qed.

(** C1, as the code has it: when the multiple-results file decodes to a
    frame whose stripped header is no arrangement of model, performance
    and metric, [update_perf_csv] raises and leaves every file, the
    report included, as it was.  Once the report is loaded the error is a
    RuntimeError: with a header of three columns its message names the
    first required column that is missing; with any other number of
    columns it is the fixed message that lists the three required columns,
    whatever the columns of the file are. *)
Theorem bad_header_raises
  (single_result exception_result failed_result multiple_results : option string)
  (perf_csv : string) (model_name common_info : option string) (st : fs)
  (path text : string) (mdf : DataFrame) :
  supplied multiple_results = Some path ->
  st !! path = Some text ->
  parse_csv text = Some mdf ->
  ~ Permutation (map strip (columns mdf)) headings ->
  let header := map strip (columns mdf) in
  let call :=
    update_perf_csv single_result exception_result failed_result multiple_results
      perf_csv model_name common_info in
  (exists e, call st = (Raise e, st))
  /\ forall perf_csv_df,
       load_report perf_csv st = (Ok perf_csv_df, st) ->
       (List.length header <> 3%nat ->
        call st = (Raise (RuntimeError three_columns_msg), st))
       /\ (List.length header = 3%nat ->
           exists heading,
             first_missing header = Some heading
             /\ In heading headings /\ ~ In heading header
             /\ call st = (Raise (RuntimeError (missing_column_msg heading)), st)).
Proof.
  intros Hsup Hp Hcsv Hperm header call.
  assert (Hbad : exists e, check_header header = Raise e).
  { destruct (check_header header) as [[]|e] eqn:E; [|eauto].
    exfalso. now apply Hperm, check_header_Permutation. }
  assert (Hrun : forall df, load_report perf_csv st = (Ok df, st) ->
            forall e, check_header header = Raise e -> call st = (Raise e, st)).
  { intros df Hload e He. unfold call, update_perf_csv.
    rewrite (io_bind_ok _ _ _ _ _ Hload), Hsup.
    apply io_bind_raise. eapply handle_multiple_results_bad_header; eassumption. }
  split.
  - destruct (load_report perf_csv st) as [[df|e] st1] eqn:Hload.
    + pose proof (load_report_state _ _ _ _ Hload). subst st1.
      destruct Hbad as [e He]. exists e. now apply (Hrun df).
    + pose proof (load_report_state _ _ _ _ Hload). subst st1.
      exists e. unfold call, update_perf_csv. now apply io_bind_raise.
  - intros df Hload. pose proof (check_header_result header) as Hres. split.
    + intros Hlen. apply Nat.eqb_neq in Hlen. rewrite Hlen in Hres.
      now apply (Hrun df).
    + intros Hlen. destruct Hbad as [e He]. apply Nat.eqb_eq in Hlen.
      rewrite Hlen in Hres. destruct (first_missing header) as [heading|] eqn:Hm.
      * exists heading. destruct (first_missing_Some _ _ Hm) as [Hin Hnot].
        repeat split; try assumption. now apply (Hrun df).
      * congruence.
Qed.

(** C4, as the code has it: the report does not exist and [single_result]
    is a JSON file holding resnet, 123.4, images/sec and SUCCESS under
    model, performance, metric and status.  With no tags key, as in the
    scenario, [flatten_tags] raises a KeyError and nothing is written.
    With a tags key as well, the call succeeds: the report gets the
    20-column header and one line with those four values, the flattened
    tags, and every other column empty; the side file gets the same row
    under the keys of the JSON. *)
Theorem single_result_scenario
  (exception_result failed_result multiple_results : option string)
  (perf_csv : string) (model_name common_info : option string) (st : fs)
  (text : string) :
  supplied multiple_results = None ->
  st !! perf_csv = None ->
  st !! "r.json" = Some text ->
  let call :=
    update_perf_csv (Some "r.json") exception_result failed_result
      multiple_results perf_csv model_name common_info in
  (parse_json text = Some r_json_members ->
   call st = (Raise (KeyError ["tags"]), st))
  /\ forall tags,
       parse_json text = Some (r_json_members ++ [("tags", tags)]) ->
       call st
       = (Ok tt,
          <[perf_csv :=
              csv_text [report_columns; resnet_line (csv_cell (flat_tags tags))]]>
            (<[perf_entry_csv :=
                 csv_text [ ["model"; "performance"; "metric"; "status"; "tags"];
                            ["resnet"; "123.4"; "images/sec"; "SUCCESS";
                             csv_cell (flat_tags tags)] ]]> st)).
Proof.
  intros Hsup Hnone Hr call. unfold call, update_perf_csv. rewrite Hsup.
  simpl supplied. cbv iota beta. unfold io_bind at 1 3. unfold load_report.
  rewrite Hnone. split.
  - intros Hjson. unfold io_bind, handle_single_result, io_bind, read_json.
    rewrite Hr, Hjson. reflexivity.
  - intros tags Hjson. unfold io_bind. destruct tags as [a|items].
    + rewrite (handle_single_result_ok _ _ _ _
                 (r_json_members ++ [("tags", JAtom a)])
                 (r_json_members ++ [("tags", JAtom a)]) Hr Hjson eq_refl eq_refl).
      reflexivity.
    + rewrite (handle_single_result_ok _ _ _ _
                 (r_json_members ++ [("tags", JList items)])
                 (r_json_members
                  ++ [("tags", JAtom (SStr (join "," (map py_str items))))])
                 Hr Hjson eq_refl eq_refl).
      reflexivity.
Qed.

Lemma handle_multiple_results_missing df mr ci prefix st mdf common :
  well_formed_artifact st mr ci mdf common ->
  missing_columns df common <> [] ->
  handle_multiple_results df mr (Some ci) (Some prefix) st
  = (Raise (KeyError (missing_columns df common)), st).
Proof.
  intros ((text & Hmr & Hcsv) & Hhdr & Hrect & Hne
          & (info & members & Hci & Hjson & Hflat) & Hok) Hmiss.
  assert (Hnd : NoDup (keys common)).
  { rewrite (flatten_tags_keys _ _ Hflat). apply NoDup_keys_dict_of_pairs. }
  assert (Hrec : Forall (has_fields (map strip (columns mdf))) (rows mdf)).
  { eapply Forall_impl; [exact Hrect|]. intros r Hr. simpl in Hr.
    apply check_header_has_fields; [assumption|]. now rewrite length_map. }
  destruct (rows mdf) as [|r records] eqn:Erows; [congruence|].
  destruct (add_results_from_common prefix (map strip (columns mdf)) common
              (columns df) r records Hnd Hok Hrec) as (final & Hrun & Hfin & _).
  unfold handle_multiple_results, io_bind, read_csv, read_json, lift.
  rewrite Hmr, Hcsv. simpl. rewrite Hhdr, Hci, Hjson, Hflat, Erows, Hrun.
  assert (Hsame : List.filter (fun c => negb (mem c (columns final))) (columns df)
                  = missing_columns df common).
  { unfold missing_columns. apply filter_ext. intros c. f_equal.
    destruct (mem c (columns final)) eqn:E.
    - apply mem_In, Hfin in E. symmetry. apply orb_true_iff.
      destruct E as [E|E]; [left | right]; now apply mem_In.
    - apply mem_false in E. symmetry. apply orb_false_iff.
      split; apply mem_false; intros Hin; apply E, Hfin; tauto. }
  unfold df_select. rewrite Hsame.
  destruct (missing_columns df common); [congruence | reflexivity].
Qed.

(** C5, as the code has it: on the multiple-results path the rows built
    are brought to the columns of the existing report, in the report's
    order, before they are written to the side file and stacked under the
    report.  This needs every column of the report among the keys of the
    built rows: when some are lacking, the call raises a KeyError that
    lists them and writes nothing.  With the scenario's two-record file,
    the model name suite1 and a common information that holds pipeline
    p1, the tags x and y and the fourteen remaining columns as empty
    strings, the call on a missing report succeeds and appends exactly two
    lines: suite1_A with performance 10.0, status SUCCESS and tags x,y,
    and suite1_B with an empty performance, status FAILURE and tags x,y.
    With the common information of the scenario itself, pipeline and tags
    alone, the call raises the KeyError for the fourteen other columns. *)
Theorem multiple_results_reindexed :
  (forall (st : fs) (perf_csv_df : DataFrame)
          (multiple_results common_info model_name : string)
          (mdf : DataFrame) (common : dict),
      valid_artifact st perf_csv_df multiple_results common_info mdf common ->
      exists added,
        handle_multiple_results perf_csv_df multiple_results (Some common_info)
          (Some model_name) st
        = (Ok (mkDF (columns perf_csv_df) (rows perf_csv_df ++ added)),
           <[perf_entry_csv :=
               csv_text (columns perf_csv_df :: map (map csv_cell) added)]> st)
        /\ Forall (fun row => List.length row = List.length (columns perf_csv_df)) added
        /\ forall i r c,
             rows mdf !! i = Some r -> In c (columns perf_csv_df) ->
             exists row,
               added !! i = Some row
               /\ row_lookup (columns perf_csv_df) row c
                  = Some (new_cell model_name (map strip (columns mdf)) common r c))
  /\ (forall (st : fs) (perf_csv_df : DataFrame)
             (multiple_results common_info model_name : string)
             (mdf : DataFrame) (common : dict),
        well_formed_artifact st multiple_results common_info mdf common ->
        missing_columns perf_csv_df common <> [] ->
        handle_multiple_results perf_csv_df multiple_results (Some common_info)
          (Some model_name) st
        = (Raise (KeyError (missing_columns perf_csv_df common)), st))
  /\ (forall (single_result exception_result failed_result : option string)
             (perf_csv : string) (st : fs) (text info : string),
        st !! perf_csv = None ->
        st !! "multiple_results.csv" = Some text ->
        parse_csv text = Some multiple_results_frame ->
        st !! "common_info.json" = Some info ->
        let call :=
          update_perf_csv single_result exception_result failed_result
            (Some "multiple_results.csv") perf_csv (Some "suite1")
            (Some "common_info.json") in
        (parse_json info = Some common_info_full_members ->
         call st
         = (Ok tt,
            <[perf_csv := csv_text [report_columns; suite1_A_line; suite1_B_line]]>
              (<[perf_entry_csv :=
                   csv_text [report_columns; suite1_A_line; suite1_B_line]]> st)))
        /\ (parse_json info = Some common_info_members ->
            call st = (Raise (KeyError other_columns), st))).
Proof.
  split; [|split].
  - intros st df mr ci prefix mdf common Hvalid.
    exists (map (new_row prefix (map strip (columns mdf)) common (columns df)) (rows mdf)).
    split; [apply valid_artifact_run, Hvalid|]. split.
    + apply Forall_forall. intros row Hrow.
      apply list_elem_of_In, in_map_iff in Hrow as (r & <- & _).
      unfold new_row. apply length_map.
    + intros i r c Hi Hc. eexists. split.
      * rewrite list_lookup_fmap, Hi. reflexivity.
      * unfold new_row. now apply row_lookup_map.
  - intros st df mr ci prefix mdf common. apply handle_multiple_results_missing.
  - intros sr er fr perf_csv st text info Hnone Hmr Hcsv Hci call.
    assert (Hrect : rectangular multiple_results_frame).
    { unfold rectangular. simpl. repeat constructor. }
    unfold call, update_perf_csv. simpl supplied. cbv iota beta.
    unfold io_bind at 1 3. unfold load_report. rewrite Hnone. unfold io_bind. split.
    + intros Hjson.
      rewrite (valid_artifact_run st (mkDF report_columns []) "multiple_results.csv"
                 "common_info.json" "suite1" multiple_results_frame
                 (dict_set "tags" (JAtom (SStr "x,y"))
                    (dict_of_pairs common_info_full_members))).
      * reflexivity.
      * split; [|now apply covered_columns].
        split; [eauto|]. split; [reflexivity|]. split; [exact Hrect|].
        split; [discriminate|]. split; [|reflexivity].
        exists info, common_info_full_members. repeat split; assumption || reflexivity.
    + intros Hjson.
      rewrite (handle_multiple_results_missing (mkDF report_columns [])
                 "multiple_results.csv" "common_info.json" "suite1" st
                 multiple_results_frame
                 (dict_set "tags" (JAtom (SStr "x,y")) (dict_of_pairs common_info_members))).
      * reflexivity.
      * split; [eauto|]. split; [reflexivity|]. split; [exact Hrect|].
        split; [discriminate|]. split; [|reflexivity].
        exists info, common_info_members. repeat split; assumption || reflexivity.
      * discriminate.
Qed.

Lemma handle_single_result_inv df p st df' st' :
  handle_single_result df p st = (Ok df', st') ->
  exists text members d,
    st !! p = Some text /\ parse_json text = Some members /\
    flatten_tags (dict_of_pairs members) = Ok d /\ frame_ok d = true /\
    df' = pd_concat df (one_row d) /\
    st' = <[perf_entry_csv := csv_text (to_csv_fields (one_row d))]> st.
Proof.
  unfold handle_single_result, perf_entry_dict_to_csv, io_bind, read_json, lift.
  destruct (st !! p) as [text|] eqn:Hp; [|discriminate].
  destruct (parse_json text) as [members|] eqn:Hj; [|discriminate].
  destruct (flatten_tags (dict_of_pairs members)) as [d|e] eqn:Hf; [|discriminate].
  destruct (frame_ok d) eqn:Hok.
  - rewrite (df_of_dict_ok _ Hok). simpl. rewrite (df_of_dict_ok _ Hok).
    intros H. inversion H. exists text, members, d. auto 10.
  - unfold df_of_dict. rewrite (cells_of_values_raise _ Hok). discriminate.
Qed.

Lemma handle_multiple_results_inv df p ci mn st df' st' :
  handle_multiple_results df p ci mn st = (Ok df', st') ->
  exists added,
    df' = mkDF (columns df) (rows df ++ added) /\
    Forall (fun r => List.length r = List.length (columns df)) added /\
    st' = <[perf_entry_csv := csv_text (to_csv_fields (mkDF (columns df) added))]> st.
Proof.
  unfold handle_multiple_results, io_bind, read_csv, lift, io_raise, lift.
  destruct (st !! p) as [text|]; [|discriminate].
  destruct (parse_csv text) as [mdf|]; [|discriminate].
  destruct (check_header (columns (df_strip_columns mdf))); [|discriminate].
  destruct ci as [ci|]; [|discriminate]. unfold read_json.
  destruct (st !! ci) as [info|]; [|discriminate].
  destruct (parse_json info) as [members|]; [|discriminate].
  destruct (flatten_tags (dict_of_pairs members)) as [common|]; [|discriminate].
  destruct (add_results mn _ _ common empty_frame) as [final|]; [|discriminate].
  destruct (df_select final (columns df)) as [sel|] eqn:Hsel; [|discriminate].
  apply df_select_inv in Hsel. subst sel. simpl. rewrite pd_concat_same by reflexivity.
  intros H. inversion H. eexists. split; [reflexivity|]. split; [|reflexivity].
  apply Forall_forall. intros r Hr.
  apply list_elem_of_In, in_map_iff in Hr as (r' & <- & _). apply length_reindex.
Qed.

Lemma update_single_schema df artifact perf_csv st st' :
  rectangular df ->
  io_bind (handle_single_result df artifact) (fun d => to_csv d perf_csv) st
  = (Ok tt, st') ->
  exists updated text members d,
    st' !! perf_csv = Some (csv_text (to_csv_fields updated))
    /\ rectangular updated
    /\ st !! artifact = Some text /\ parse_json text = Some members
    /\ flatten_tags (dict_of_pairs members) = Ok d
    /\ columns updated = union_columns (columns df) (keys d)
    /\ exists old,
         List.length old = List.length (rows df)
         /\ rows updated = old ++ [aligned_row d (columns updated)].
Proof.
  intros Hrect H. apply io_bind_inv in H as (df1 & st1 & Hrun & Hw).
  apply handle_single_result_inv in Hrun
    as (text & members & d & Hp & Hj & Hf & Hok & -> & ->).
  unfold to_csv in Hw. inversion Hw. subst st'. clear Hw.
  assert (Hnd : NoDup (keys d)).
  { rewrite (flatten_tags_keys _ _ Hf). apply NoDup_keys_dict_of_pairs. }
  destruct (pd_concat_one df d Hnd) as (Hc & old & Hlen & Hr).
  exists (pd_concat df (one_row d)), text, members, d.
  split; [apply lookup_insert_eq|].
  split; [apply rectangular_pd_concat; [assumption | apply rectangular_one_row]|].
  repeat (split; [assumption|]). exists old. split; [assumption|]. now rewrite Hc.
Qed.

(** C6, as the code has it: let a call of [update_perf_csv] start from a
    rectangular report table (the empty 20-column table when the report
    does not exist) and succeed.  The report it writes is rectangular:
    every line has as many fields as the header.  On the multiple-results
    path the header is the one the call started from.  On the single and
    exception paths the header is the one the call started from followed
    by the keys of the flattened artifact that it lacks, in the order of
    the artifact: it is unchanged exactly when every key of the artifact is
    a column already, whatever the order of the keys, and a key outside
    the schema adds a column.  The new row is the artifact laid out along
    the header, a column the artifact lacks being NaN, which is written as
    the empty field. *)
Theorem report_schema_after_call
  (single_result exception_result failed_result multiple_results : option string)
  (perf_csv : string) (model_name common_info : option string)
  (st st' : fs) (perf_csv_df : DataFrame) :
  load_report perf_csv st = (Ok perf_csv_df, st) ->
  rectangular perf_csv_df ->
  update_perf_csv single_result exception_result failed_result multiple_results
    perf_csv model_name common_info st = (Ok tt, st') ->
  (st !! perf_csv = None -> columns perf_csv_df = report_columns)
  /\ csv_cell SNaN = EmptyString
  /\ exists updated,
       st' !! perf_csv = Some (csv_text (to_csv_fields updated))
       /\ Forall (fun line => List.length line = List.length (columns updated))
            (to_csv_fields updated)
       /\ (forall p, supplied multiple_results = Some p ->
             columns updated = columns perf_csv_df)
       /\ (supplied multiple_results = None ->
           exists artifact text members d,
             (supplied single_result = Some artifact
              \/ (supplied single_result = None
                  /\ supplied exception_result = Some artifact))
             /\ st !! artifact = Some text
             /\ parse_json text = Some members
             /\ flatten_tags (dict_of_pairs members) = Ok d
             /\ columns updated = union_columns (columns perf_csv_df) (keys d)
             /\ ((forall k, In k (keys d) -> In k (columns perf_csv_df))
                 <-> columns updated = columns perf_csv_df)
             /\ (exists old,
                   List.length old = List.length (rows perf_csv_df)
                   /\ rows updated = old ++ [aligned_row d (columns updated)])
             /\ forall c, In c (columns updated) -> dict_get c d = None ->
                  row_lookup (columns updated) (aligned_row d (columns updated)) c
                  = Some SNaN).
Proof.
  intros Hload Hrect Hcall. split; [|split; [reflexivity|]].
  { intros Hnone. unfold load_report in Hload. rewrite Hnone in Hload.
    now inversion Hload. }
  unfold update_perf_csv in Hcall. rewrite (io_bind_ok _ _ _ _ _ Hload) in Hcall.
  destruct (supplied multiple_results) as [mr|] eqn:Hmr.
  - apply io_bind_inv in Hcall as (df1 & st1 & Hrun & Hw).
    apply handle_multiple_results_inv in Hrun as (added & -> & Hadded & ->).
    unfold to_csv in Hw. inversion Hw. subst st'. clear Hw.
    eexists. split; [apply lookup_insert_eq|]. split.
    + apply csv_lines_rectangular. unfold rectangular. simpl.
      apply Forall_app. split; assumption.
    + split; [reflexivity | discriminate].
  - assert (Hone : exists artifact,
              (supplied single_result = Some artifact
               \/ (supplied single_result = None
                   /\ supplied exception_result = Some artifact))
              /\ io_bind (handle_single_result perf_csv_df artifact)
                   (fun d => to_csv d perf_csv) st = (Ok tt, st')).
    { destruct (supplied single_result) as [sr|].
      - exists sr. split; [now left | exact Hcall].
      - destruct (supplied exception_result) as [er|].
        + exists er. split; [now right | exact Hcall].
        + discriminate. }
    destruct Hone as (artifact & Hwhich & Hrun).
    apply (update_single_schema _ _ _ _ _ Hrect) in Hrun
      as (updated & text & members & d & Hput & Hr & Hp & Hj & Hf & Hc & old & Hlen & Hrows).
    exists updated. split; [assumption|].
    split; [now apply csv_lines_rectangular|]. split; [discriminate|].
    intros _. exists artifact, text, members, d.
    repeat (split; [assumption|]). split.
    { rewrite Hc. apply union_columns_same. }
    split; [now exists old|].
    intros c Hin Hnone. unfold aligned_row. rewrite row_lookup_map by assumption.
    now rewrite Hnone.
Qed.

End AggregatorProperties.


(** * Further properties of the code *)

(** ** Stripping *)

Lemma lstrip_spec s :
  match lstrip s with
  | EmptyString => True
  | String c _ => is_space c = false
  end.
Proof.
  induction s as [|c s IH]; simpl; [exact I|].
  destruct (is_space c) eqn:E; [exact IH | exact E].
Qed.

Lemma lstrip_fixed c s : is_space c = false -> lstrip (String c s) = String c s.
Proof. intros H. simpl. now rewrite H. Qed.

Lemma rstrip_head c s :
  is_space c = false -> exists t, rstrip (String c s) = String c t.
Proof.
  intros H. simpl. destruct (rstrip s); [rewrite H|]; eauto.
Qed.

Lemma rstrip_idem s : rstrip (rstrip s) = rstrip s.
Proof.
  induction s as [|c s IH]; simpl; [reflexivity|].
  destruct (rstrip s) as [|c' t] eqn:E.
  - destruct (is_space c) eqn:Ec; simpl; [reflexivity|]. now rewrite Ec.
  - change (rstrip (String c (String c' t))) with
      (match rstrip (String c' t) with
       | EmptyString => if is_space c then EmptyString else String c EmptyString
       | u => String c u
       end).
    now rewrite IH.
Qed.

Lemma strip_idem s : strip (strip s) = strip s.
Proof.
  unfold strip. pose proof (lstrip_spec s) as H.
  destruct (lstrip s) as [|c t] eqn:E; [reflexivity|].
  destruct (rstrip_head c t H) as [u Hu]. rewrite Hu.
  rewrite (lstrip_fixed _ _ H), <- Hu. apply rstrip_idem.
Qed.

Lemma rstrip_no_trailing_space s : ends_with_space (rstrip s) = false.
Proof.
  induction s as [|c s IH]; simpl; [reflexivity|].
  destruct (rstrip s) as [|c' t] eqn:E.
  - destruct (is_space c) eqn:Ec; simpl; [reflexivity | exact Ec].
  - exact IH.
Qed.

Lemma strip_no_space_at_ends s :
  starts_with_space (strip s) = false /\ ends_with_space (strip s) = false.
Proof.
  split; [|apply rstrip_no_trailing_space].
  unfold strip. pose proof (lstrip_spec s) as H.
  destruct (lstrip s) as [|c t]; [reflexivity|].
  destruct (rstrip_head c t H) as [u Hu]. rewrite Hu. exact H.
Qed.

(** X1: [df_strip_columns] keeps the rows and the number of columns,
    leaves no column name with whitespace at either end, and is
    idempotent: a second call changes nothing. *)
Theorem df_strip_columns_normalises (df : DataFrame) :
  rows (df_strip_columns df) = rows df
  /\ List.length (columns (df_strip_columns df)) = List.length (columns df)
  /\ (forall c, In c (columns (df_strip_columns df)) ->
        starts_with_space c = false /\ ends_with_space c = false)
  /\ df_strip_columns (df_strip_columns df) = df_strip_columns df.
Proof.
  split; [reflexivity|]. split; [apply length_map|]. split.
  - intros c Hc. simpl in Hc. apply in_map_iff in Hc as (c0 & <- & _).
    apply strip_no_space_at_ends.
  - unfold df_strip_columns. simpl. f_equal.
    rewrite map_map. apply map_ext. intros c. apply strip_idem.
Qed.

(** ** Rows under a concatenation *)

Lemma row_lookup_notin cols row c : ~ In c cols -> row_lookup cols row c = None.
Proof.
  revert row. induction cols as [|c' cols IH]; intros row Hn; [reflexivity|].
  destruct row as [|x row]; [reflexivity|]. simpl.
  destruct (String.eqb c c') eqn:E.
  - apply String.eqb_eq in E. subst. exfalso. apply Hn. now left.
  - apply IH. intros H. apply Hn. now right.
Qed.

Lemma reindex_app cols cols1 cols2 row :
  reindex cols (cols1 ++ cols2) row = reindex cols cols1 row ++ reindex cols cols2 row.
Proof. unfold reindex. apply map_app. Qed.

Lemma reindex_fresh cols extra row :
  (forall c, In c extra -> ~ In c cols) ->
  reindex cols extra row = repeat SNaN (List.length extra).
Proof.
  induction extra as [|c extra IH]; intros H; [reflexivity|].
  unfold reindex in *. simpl. rewrite row_lookup_notin by (apply H; now left).
  simpl. f_equal. apply IH. intros c' Hc'. apply H. now right.
Qed.

Lemma pd_concat_keeps_rows a b :
  NoDup (columns a) ->
  rectangular a ->
  exists extra new,
    columns (pd_concat a b) = columns a ++ extra
    /\ rows (pd_concat a b) = map (padded (List.length extra)) (rows a) ++ new
    /\ List.length new = List.length (rows b).
Proof.
  intros Hnd Hrect. unfold pd_concat.
  destruct (decide (columns a = columns b)) as [E|E]; simpl.
  - exists [], (rows b). rewrite app_nil_r. split; [reflexivity|]. split; [|reflexivity].
    f_equal. rewrite <- (map_id (rows a)) at 1. apply map_ext. intros r.
    unfold padded. simpl. now rewrite app_nil_r.
  - set (extra := List.filter (fun c => negb (mem c (columns a))) (columns b)).
    exists extra, (map (reindex (columns b) (columns a ++ extra)) (rows b)).
    split; [reflexivity|]. split; [|apply length_map]. f_equal.
    apply map_ext_in. intros r Hr. unfold padded. rewrite reindex_app. f_equal.
    + apply reindex_id; [assumption|]. unfold rectangular in Hrect.
      rewrite Forall_forall in Hrect. apply Hrect, list_elem_of_In, Hr.
    + apply reindex_fresh. intros c Hc. unfold extra in Hc.
      apply filter_In in Hc as [_ Hc]. now apply mem_false, negb_true_iff.
Qed.

(** ** The aggregator as a transaction *)

Section AggregatorFurther.

Context `{decoders : Decoders}.

Lemma handle_single_result_raise df p st e st' :
  handle_single_result df p st = (Raise e, st') -> st' = st.
Proof.
  unfold handle_single_result, perf_entry_dict_to_csv, perf_entry_df_to_csv, to_csv,
    io_bind, io_ret, read_json, lift.
  destruct (st !! p) as [text|]; [|intros H; now inversion H].
  destruct (parse_json text) as [members|]; [|intros H; now inversion H].
  destruct (flatten_tags (dict_of_pairs members)) as [d|]; [|intros H; now inversion H].
  destruct (df_of_dict d) as [one|] eqn:E; simpl; rewrite ?E; intros H;
    [discriminate H | now inversion H].
Qed.

Lemma handle_multiple_results_raise df p ci mn st e st' :
  handle_multiple_results df p ci mn st = (Raise e, st') -> st' = st.
Proof.
  unfold handle_multiple_results, io_bind, read_csv, lift, io_raise, lift.
  destruct (st !! p) as [text|]; [|intros H; now inversion H].
  destruct (parse_csv text) as [mdf|]; [|intros H; now inversion H].
  destruct (check_header (columns (df_strip_columns mdf))); [|intros H; now inversion H].
  destruct ci as [ci|]; [|intros H; now inversion H]. unfold read_json.
  destruct (st !! ci) as [info|]; [|intros H; now inversion H].
  destruct (parse_json info) as [members|]; [|intros H; now inversion H].
  destruct (flatten_tags (dict_of_pairs members)) as [common|]; [|intros H; now inversion H].
  destruct (add_results mn _ _ common empty_frame) as [final|]; [|intros H; now inversion H].
  destruct (df_select final (columns df)) as [sel|]; simpl;
    [unfold perf_entry_df_to_csv, to_csv, io_ret; intros H; discriminate H
    | intros H; now inversion H].
Qed.

(** What a call that got past the loading of the report comes down to:
    one of the three handlers followed by the writing of the report, or
    the missing-argument error. *)
Lemma update_perf_csv_cases sr er fr mr perf_csv mn ci st df :
  load_report perf_csv st = (Ok df, st) ->
  (exists handler,
      (handler = handle_multiple_results df (default EmptyString (supplied mr)) ci mn
       /\ supplied mr <> None
       \/ exists p, handler = handle_single_result df p)
      /\ update_perf_csv sr er fr mr perf_csv mn ci st
         = io_bind handler (fun d => to_csv d perf_csv) st)
  \/ update_perf_csv sr er fr mr perf_csv mn ci st = (Raise (RuntimeError no_result_msg), st).
Proof.
  intros Hload. unfold update_perf_csv. rewrite (io_bind_ok _ _ _ _ _ Hload).
  destruct (supplied mr) as [p|] eqn:Hmr.
  - left. eexists. split; [left; split; [reflexivity | discriminate]|]. reflexivity.
  - destruct (supplied sr) as [p|].
    + left. eexists. split; [right; eauto|]. reflexivity.
    + destruct (supplied er) as [p|].
      * left. exists (handle_single_result df p). split; [right; eauto|]. reflexivity.
      * now right.
Qed.

(** X2: every check of [update_perf_csv] comes before its first write.
    Take a report that, when it loads, has distinct column names, and
    leave aside a failure of one of the two writes themselves, which are
    taken to succeed.  Then a call that raises (while loading the report,
    reading or decoding an artifact, checking the header, flattening the
    tags, building the rows or selecting the report's columns, or for
    want of an argument) leaves the file system as it found it: neither
    the report nor the side file is touched. *)
Theorem update_perf_csv_all_or_nothing
  (single_result exception_result failed_result multiple_results : option string)
  (perf_csv : string) (model_name common_info : option string) (st st' : fs) (e : exn) :
  (forall perf_csv_df,
     load_report perf_csv st = (Ok perf_csv_df, st) -> NoDup (columns perf_csv_df)) ->
  update_perf_csv single_result exception_result failed_result multiple_results
    perf_csv model_name common_info st = (Raise e, st') ->
  st' = st.
Proof.
  intros _ Hcall.
  destruct (load_report perf_csv st) as [[df|e0] st1] eqn:Hload;
    pose proof (load_report_state _ _ _ _ Hload); subst st1.
  - destruct (update_perf_csv_cases single_result exception_result failed_result
                multiple_results perf_csv model_name common_info st df Hload)
      as [(handler & Hwhich & Heq)|Heq]; rewrite Heq in Hcall.
    + unfold io_bind in Hcall.
      destruct (handler st) as [[d|e1] st1] eqn:Hrun; [discriminate|].
      inversion Hcall. subst st1.
      destruct Hwhich as [[-> _]|[p ->]].
      * eapply handle_multiple_results_raise, Hrun.
      * eapply handle_single_result_raise, Hrun.
    + now inversion Hcall.
  - unfold update_perf_csv in Hcall.
    rewrite (io_bind_raise _ _ _ _ _ Hload) in Hcall. now inversion Hcall.
Qed.

(** X3: a call of [update_perf_csv] that succeeds writes the report and
    the side file and nothing else: both exist afterwards and every
    other file is as before. *)
Theorem update_perf_csv_footprint
  (single_result exception_result failed_result multiple_results : option string)
  (perf_csv : string) (model_name common_info : option string) (st st' : fs) :
  update_perf_csv single_result exception_result failed_result multiple_results
    perf_csv model_name common_info st = (Ok tt, st') ->
  is_Some (st' !! perf_csv)
  /\ is_Some (st' !! perf_entry_csv)
  /\ forall path, path <> perf_csv -> path <> perf_entry_csv ->
       st' !! path = st !! path.
Proof.
  intros Hcall.
  destruct (load_report perf_csv st) as [[df|e0] st1] eqn:Hload;
    pose proof (load_report_state _ _ _ _ Hload); subst st1.
  2:{ unfold update_perf_csv in Hcall.
      rewrite (io_bind_raise _ _ _ _ _ Hload) in Hcall. discriminate. }
  destruct (update_perf_csv_cases single_result exception_result failed_result
              multiple_results perf_csv model_name common_info st df Hload)
    as [(handler & Hwhich & Heq)|Heq]; rewrite Heq in Hcall; [|discriminate].
  apply io_bind_inv in Hcall as (d & st1 & Hrun & Hw).
  unfold to_csv in Hw. inversion Hw. subst st'. clear Hw.
  assert (Hside : exists side, st1 = <[perf_entry_csv := side]> st).
  { destruct Hwhich as [[-> _]|[p ->]].
    - apply handle_multiple_results_inv in Hrun as (added & _ & _ & ->). eauto.
    - apply handle_single_result_inv in Hrun as (? & ? & ? & _ & _ & _ & _ & _ & ->). eauto. }
  destruct Hside as [side ->]. split; [|split].
  - rewrite lookup_insert_eq. eauto.
  - destruct (decide (perf_csv = perf_entry_csv)) as [->|Hne].
    + rewrite lookup_insert_eq. eauto.
    + rewrite lookup_insert_ne by assumption. rewrite lookup_insert_eq. eauto.
  - intros path H1 H2. rewrite !lookup_insert_ne by congruence. reflexivity.
Qed.

(** X4: a successful call of [update_perf_csv] on a rectangular report
    with distinct column names and no int cell keeps every row the report
    had, in order and cell by cell: the columns of the table it writes are
    the old ones followed by the new ones, if any, and its rows are the
    old rows, each filled with NaN under the new columns, followed by the
    rows of the call.  (An int column is left out: pandas turns it into
    floats when it receives NaN or a float.) *)
Theorem update_perf_csv_keeps_rows
  (single_result exception_result failed_result multiple_results : option string)
  (perf_csv : string) (model_name common_info : option string) (st st' : fs)
  (perf_csv_df : DataFrame) :
  load_report perf_csv st = (Ok perf_csv_df, st) ->
  NoDup (columns perf_csv_df) ->
  rectangular perf_csv_df ->
  no_int_cell perf_csv_df = true ->
  update_perf_csv single_result exception_result failed_result multiple_results
    perf_csv model_name common_info st = (Ok tt, st') ->
  exists updated extra new,
    st' !! perf_csv = Some (csv_text (to_csv_fields updated))
    /\ columns updated = columns perf_csv_df ++ extra
    /\ rows updated
       = map (padded (List.length extra)) (rows perf_csv_df) ++ new.
Proof.
  intros Hload Hnd Hrect _ Hcall.
  destruct (update_perf_csv_cases single_result exception_result failed_result
              multiple_results perf_csv model_name common_info st perf_csv_df Hload)
    as [(handler & Hwhich & Heq)|Heq]; rewrite Heq in Hcall; [|discriminate].
  apply io_bind_inv in Hcall as (d & st1 & Hrun & Hw).
  unfold to_csv in Hw. inversion Hw. subst st'. clear Hw.
  exists d. destruct Hwhich as [[-> _]|[p ->]].
  - apply handle_multiple_results_inv in Hrun as (added & -> & _ & _).
    exists [], added. split; [apply lookup_insert_eq|]. simpl.
    rewrite app_nil_r. split; [reflexivity|]. f_equal.
    rewrite <- (map_id (rows perf_csv_df)) at 1. apply map_ext. intros r.
    unfold padded. simpl. now rewrite app_nil_r.
  - apply handle_single_result_inv in Hrun as (? & ? & one & _ & _ & _ & _ & -> & _).
    destruct (pd_concat_keeps_rows perf_csv_df (one_row one) Hnd Hrect)
      as (extra & new & Hc & Hr & _).
    exists extra, new. split; [apply lookup_insert_eq|]. now split.
Qed.

(** X5: a multiple-results file that has the right header and no record
    is refused whenever the report has a column: the frame of results
    stays empty, so selecting the report's columns from it raises a
    KeyError that lists all of them, and nothing is written.  The model
    name is not even looked at. *)
Theorem multiple_results_without_records
  (perf_csv_df : DataFrame) (multiple_results common_info : string)
  (model_name : option string) (st : fs) (text info : string) (mdf : DataFrame)
  (members : list (string * jvalue)) (common : dict) :
  st !! multiple_results = Some text ->
  parse_csv text = Some mdf ->
  check_header (map strip (columns mdf)) = Ok tt ->
  rows mdf = [] ->
  st !! common_info = Some info ->
  parse_json info = Some members ->
  flatten_tags (dict_of_pairs members) = Ok common ->
  columns perf_csv_df <> [] ->
  handle_multiple_results perf_csv_df multiple_results (Some common_info) model_name st
  = (Raise (KeyError (columns perf_csv_df)), st).
Proof.
  intros Hmr Hcsv Hhdr Hrows Hci Hjson Hflat Hcols.
  unfold handle_multiple_results, io_bind, read_csv, read_json, lift.
  rewrite Hmr, Hcsv. simpl. rewrite Hhdr, Hci, Hjson, Hflat, Hrows. simpl.
  unfold df_select. simpl. rewrite filter_all by reflexivity.
  destruct (columns perf_csv_df); [congruence | reflexivity].
Qed.

End AggregatorFurther.

(** ** Running commands *)

(** X6: [Console.sh] returns exactly when the process ended and either
    its exit code is 0 or [can_fail] is set; what it returns is then the
    stripped output, which has no whitespace at either end.  A timeout or
    a failure to read the process raises whatever [can_fail] says. *)
Theorem Console_sh_returns (command : string) (can_fail : bool)
  (secret : Console.secret_arg) (p : Console.proc) (out : string) :
  (Console.sh command can_fail secret p = Ok out
   <-> exists outs returncode,
         p = Console.Exited outs returncode
         /\ (returncode = 0%Z \/ can_fail = true)
         /\ out = strip outs)
  /\ (Console.sh command can_fail secret p = Ok out ->
      starts_with_space out = false /\ ends_with_space out = false).
Proof.
  assert (Hiff : Console.sh command can_fail secret p = Ok out
                 <-> exists outs returncode,
                       p = Console.Exited outs returncode
                       /\ (returncode = 0%Z \/ can_fail = true)
                       /\ out = strip outs).
  { unfold Console.sh. destruct p as [outs rc| |].
    - destruct (Z.eqb_spec rc 0) as [E|E]; simpl.
      + split.
        * intros H. inversion H. exists outs, rc. auto.
        * intros (o & r & Hp & _ & ->). now inversion Hp.
      + destruct can_fail; simpl.
        * split.
          -- intros H. inversion H. exists outs, rc. auto.
          -- intros (o & r & Hp & _ & ->). now inversion Hp.
        * split.
          -- destruct (Console.truth secret); simpl; [|discriminate].
             destruct secret; simpl; discriminate.
          -- intros (o & r & Hp & [H0|Hc] & _); [|discriminate].
             inversion Hp. congruence.
    - split; [discriminate | intros (o & r & Hp & _); discriminate].
    - split; [discriminate | intros (o & r & Hp & _); discriminate]. }
  split; [exact Hiff|].
  intros H. apply Hiff in H as (outs & rc & _ & _ & ->).
  apply strip_no_space_at_ends.
Qed.

(** X7: [Docker.sh] does not pass [can_fail] on, so a command that fails
    inside the container is never tolerated: the call returns exactly when
    the process ended with exit code 0, and then returns the stripped
    output. *)
Theorem Docker_sh_returns (docker_sha command : string)
  (secret : Console.secret_arg) (p : Console.proc) (out : string) :
  Docker.sh docker_sha command secret p = Ok out
  <-> exists outs, p = Console.Exited outs 0 /\ out = strip outs.
Proof.
  unfold Docker.sh.
  destruct (Console_sh_returns (Docker.exec_command docker_sha command) false secret p out)
    as [Hiff _].
  rewrite Hiff. split.
  - intros (outs & rc & -> & [->|Hc] & ->); [eauto | discriminate].
  - intros (outs & -> & ->). exists outs, 0%Z. auto.
Qed.

(** ** Probing the environment *)

(** X8: the functions that depend on the GPU vendor give NVIDIA priority
    and never fall through to their last branch.  The Dockerfile suffix
    is .nvidia exactly when nvidia-smi runs, .amd exactly when nvidia-smi
    is missing or fails and rocm-smi runs, and in every other case the
    process exits with status 1; the empty suffix is never returned.  The
    Docker arguments are chosen by the same cases. *)
Theorem gpu_suffix_cases (nvidia_smi rocm_smi : Env.probe) :
  (Env.get_dockerfile_gpu_suffix nvidia_smi rocm_smi = Env.Return ".nvidia"
   <-> nvidia_smi = Env.Ran)
  /\ (Env.get_dockerfile_gpu_suffix nvidia_smi rocm_smi = Env.Return ".amd"
      <-> Env.in_ERRORS nvidia_smi = true /\ rocm_smi = Env.Ran)
  /\ (Env.get_dockerfile_gpu_suffix nvidia_smi rocm_smi = Env.Fail (Env.SystemExit 1)
      <-> nvidia_smi <> Env.Ran
          /\ ~ (Env.in_ERRORS nvidia_smi = true /\ rocm_smi = Env.Ran))
  /\ Env.get_dockerfile_gpu_suffix nvidia_smi rocm_smi <> Env.Return EmptyString
  /\ (Env.get_dockerfile_gpu_suffix nvidia_smi rocm_smi = Env.Return ".nvidia"
      <-> Env.get_gpu_docker_args nvidia_smi rocm_smi
          = Env.Return "--gpus all --shm-size 16g")
  /\ (Env.get_dockerfile_gpu_suffix nvidia_smi rocm_smi = Env.Return ".amd"
      <-> Env.get_gpu_docker_args nvidia_smi rocm_smi
          = Env.Return "--device=/dev/kfd --device=/dev/dri --shm-size 16g").
Proof.
  destruct nvidia_smi, rocm_smi; vm_compute;
    repeat split; try discriminate; try tauto; try congruence;
    try (intros [H1 H2]; discriminate); try (intros [H1 H2]; congruence);
    try (intros H; apply H; split; reflexivity).
Qed.

(** X9: [get_host_os] prefers apt to yum and yum to zypper.  When none
    of the three exists it does not raise the exception it means to: the
    message refers to a variable that was never assigned, so an
    UnboundLocalError is raised instead.  [get_dockerfile_linux_suffix]
    turns that into an exit with status 1, and never returns the empty
    suffix. *)
Theorem host_os_cases (apt yum zypper : bool) :
  (Env.get_host_os apt yum zypper = Env.Return "HOST_UBUNTU" <-> apt = true)
  /\ (Env.get_host_os apt yum zypper = Env.Return "HOST_CENTOS"
      <-> apt = false /\ yum = true)
  /\ (Env.get_host_os apt yum zypper = Env.Return "HOST_SLES"
      <-> apt = false /\ yum = false /\ zypper = true)
  /\ (Env.get_host_os apt yum zypper = Env.Fail (Env.UnboundLocalError "host_os")
      <-> apt = false /\ yum = false /\ zypper = false)
  /\ (forall msg, Env.get_host_os apt yum zypper <> Env.Fail (Env.Exception msg))
  /\ (Env.get_dockerfile_linux_suffix apt yum zypper = Env.Fail (Env.SystemExit 1)
      <-> apt = false /\ yum = false /\ zypper = false)
  /\ Env.get_dockerfile_linux_suffix apt yum zypper <> Env.Return EmptyString.
Proof.
  destruct apt, yum, zypper; vm_compute;
    repeat split; try discriminate; try tauto; try congruence;
    try (intros [H1 H2]; discriminate); try (intros (H1 & H2 & H3); discriminate).
Qed.

(** ** Reading the base image out of a Dockerfile *)

Lemma split_on_nonempty sep s : split_on sep s <> [].
Proof.
  destruct s as [|c s]; simpl; [discriminate|].
  destruct (Ascii.eqb c sep); [discriminate|].
  destruct (split_on sep s); discriminate.
Qed.

Lemma last_cons_nonempty {A} (x : A) l d : l <> [] -> List.last (x :: l) d = List.last l d.
Proof. destruct l; [congruence | reflexivity]. Qed.

Lemma last_split_on_no_sep sep s :
  has_char sep (List.last (split_on sep s) EmptyString) = false.
Proof.
  induction s as [|c s IH]; simpl; [reflexivity|].
  destruct (Ascii.eqb c sep) eqn:E.
  - rewrite last_cons_nonempty by apply split_on_nonempty. exact IH.
  - destruct (split_on sep s) as [|p ps] eqn:Es; simpl.
    + now rewrite E.
    + destruct ps as [|p' ps'].
      * simpl in *. now rewrite E, IH.
      * exact IH.
Qed.

Lemma has_char_remove_char c d s :
  has_char c s = false -> has_char c (remove_char d s) = false.
Proof.
  induction s as [|c' s IH]; simpl; [reflexivity|].
  intros H. apply orb_false_iff in H as [H1 H2].
  destruct (Ascii.eqb c' d); simpl; [now apply IH|]. now rewrite H1, IH.
Qed.

Lemma has_char_removed c s : has_char c (remove_char c s) = false.
Proof.
  induction s as [|c' s IH]; simpl; [reflexivity|].
  destruct (Ascii.eqb c' c) eqn:E; simpl; [exact IH|]. now rewrite E, IH.
Qed.

Lemma has_char_lstrip c s : has_char c s = false -> has_char c (lstrip s) = false.
Proof.
  induction s as [|c' s IH]; simpl; [reflexivity|].
  intros H. destruct (is_space c'); [|exact H].
  apply orb_false_iff in H as [_ H]. now apply IH.
Qed.

Lemma has_char_rstrip c s : has_char c s = false -> has_char c (rstrip s) = false.
Proof.
  induction s as [|c' s IH]; simpl; [reflexivity|].
  intros H. apply orb_false_iff in H as [H1 H2]. specialize (IH H2).
  destruct (rstrip s) as [|c'' t].
  - destruct (is_space c'); simpl; [reflexivity|]. now rewrite H1.
  - simpl in *. now rewrite H1, IH.
Qed.

Lemma has_char_strip c s : has_char c s = false -> has_char c (strip s) = false.
Proof. intros H. unfold strip. now apply has_char_rstrip, has_char_lstrip. Qed.

Lemma rstrip_fixed s : ends_with_space s = false -> rstrip s = s.
Proof.
  induction s as [|c s IH]; [reflexivity|]. intros H.
  destruct s as [|c' s'].
  - simpl in *. now rewrite H.
  - change (ends_with_space (String c (String c' s')))
      with (ends_with_space (String c' s')) in H.
    change (rstrip (String c (String c' s')))
      with (match rstrip (String c' s') with
            | EmptyString => if is_space c then EmptyString else String c EmptyString
            | u => String c u
            end).
    now rewrite (IH H).
Qed.

Lemma strip_fixed s :
  starts_with_space s = false -> ends_with_space s = false -> strip s = s.
Proof.
  intros H1 H2. unfold strip.
  assert (Hl : lstrip s = s) by (destruct s; simpl in *; [reflexivity | now rewrite H1]).
  rewrite Hl. now apply rstrip_fixed.
Qed.

Lemma split_on_without_sep sep s : has_char sep s = false -> split_on sep s = [s].
Proof.
  induction s as [|c s IH]; simpl; [reflexivity|].
  intros H. apply orb_false_iff in H as [H1 H2]. now rewrite H1, (IH H2).
Qed.

Lemma last_split_on_app sep a b :
  List.last (split_on sep (a +:+ String sep b)) EmptyString
  = List.last (split_on sep b) EmptyString.
Proof.
  induction a as [|c a IH]; simpl.
  - rewrite Ascii.eqb_refl. apply last_cons_nonempty, split_on_nonempty.
  - destruct (Ascii.eqb c sep).
    + rewrite last_cons_nonempty by apply split_on_nonempty. exact IH.
    + destruct (split_on sep (a +:+ String sep b)) as [|p ps] eqn:Es.
      * exfalso. eapply split_on_nonempty, Es.
      * destruct ps as [|p' ps'].
        -- exfalso. clear IH. revert p Es.
           induction a as [|c' a IHa]; simpl; intros p Es.
           ++ rewrite Ascii.eqb_refl in Es. inversion Es.
              eapply split_on_nonempty. eassumption.
           ++ destruct (Ascii.eqb c' sep).
              ** inversion Es. eapply split_on_nonempty. eassumption.
              ** destruct (split_on sep (a +:+ String sep b)) as [|q qs] eqn:Eq;
                   [eapply split_on_nonempty, Eq|].
                 inversion Es. subst. eapply IHa. reflexivity.
        -- exact IH.
Qed.

Lemma remove_char_trailing c s :
  has_char c s = false -> remove_char c (s +:+ String c EmptyString) = s.
Proof.
  induction s as [|c' s IH]; simpl.
  - now rewrite Ascii.eqb_refl.
  - intros H. apply orb_false_iff in H as [H1 H2]. now rewrite H1, (IH H2).
Qed.

Lemma string_app_assoc (a b c : string) : (a +:+ b) +:+ c = a +:+ (b +:+ c).
Proof.
  induction a as [|x a IH]; [reflexivity|].
  change (String x ((a +:+ b) +:+ c) = String x (a +:+ (b +:+ c))). now rewrite IH.
Qed.

Lemma prefix_app s t : String.prefix s (s +:+ t) = true.
Proof.
  induction s as [|c s IH]; simpl; [now destruct t|].
  destruct (ascii_dec c c); [exact IH | congruence].
Qed.

Lemma contains_prefix sub s : String.prefix sub s = true -> contains sub s = true.
Proof. destruct s; simpl; intros ->; reflexivity. Qed.

Lemma contains_app sub a b : contains sub (a +:+ sub +:+ b) = true.
Proof.
  induction a as [|c a IH].
  - change (EmptyString +:+ sub +:+ b) with (sub +:+ b).
    apply contains_prefix, prefix_app.
  - change (String c a +:+ sub +:+ b) with (String c (a +:+ sub +:+ b)).
    simpl. rewrite IH. apply orb_true_r.
Qed.

Lemma find_after {A} (f : A -> bool) before x after :
  Forall (fun y => f y = false) before ->
  f x = true ->
  find f (before ++ x :: after) = Some x.
Proof.
  induction before as [|y before IH]; intros Hb Hx; simpl.
  - now rewrite Hx.
  - apply Forall_cons in Hb as [Hy Hb]. rewrite Hy. now apply IH.
Qed.

Lemma find_none {A} (f : A -> bool) l :
  Forall (fun y => f y = false) l -> find f l = None.
Proof.
  induction l as [|y l IH]; intros H; simpl; [reflexivity|].
  apply Forall_cons in H as [Hy H]. rewrite Hy. now apply IH.
Qed.

Lemma base_docker_of_line_plain line :
  plain_image (base_docker_of_line line) = true.
Proof.
  unfold plain_image, base_docker_of_line.
  set (piece := List.last (split_on "="%char line) EmptyString).
  assert (H1 : has_char "="%char (strip (remove_char lf piece)) = false).
  { apply has_char_strip, has_char_remove_char, last_split_on_no_sep. }
  assert (H2 : has_char lf (strip (remove_char lf piece)) = false).
  { apply has_char_strip, has_char_removed. }
  destruct (strip_no_space_at_ends (remove_char lf piece)) as [H3 H4].
  now rewrite H1, H2, H3, H4.
Qed.

(** X10: [get_base_docker] raises FileNotFoundError when the Dockerfile
    does not exist and returns the empty string when no line holds
    ARG BASE_DOCKER.  Whatever it returns has no equals sign, no line
    feed and no whitespace at either end.  It reads the first line that
    holds the marker: when that line is the marker, an equals sign and
    an image of that kind, behind whatever indentation, the image comes
    back as written. *)
Theorem get_base_docker_spec (dockerfile : string) (st : fs) :
  (st !! dockerfile = None ->
   get_base_docker dockerfile st = Raise (FileNotFoundError dockerfile))
  /\ (forall image,
        get_base_docker dockerfile st = Ok image -> plain_image image = true)
  /\ (forall text,
        st !! dockerfile = Some text ->
        Forall (fun line => contains base_docker_marker line = false) (readlines text) ->
        get_base_docker dockerfile st = Ok EmptyString)
  /\ (forall text before indent image after,
        st !! dockerfile = Some text ->
        readlines text
        = before ++ (indent +:+ base_docker_marker +:+ "=" +:+ image +:+ newline) :: after ->
        Forall (fun line => contains base_docker_marker line = false) before ->
        plain_image image = true ->
        get_base_docker dockerfile st = Ok image).
Proof.
  unfold get_base_docker. split; [|split; [|split]].
  - intros H. now rewrite H.
  - intros image. destruct (st !! dockerfile) as [text|]; [|discriminate].
    destruct (find (contains base_docker_marker) (readlines text)) as [line|];
      intros H; inversion H; [apply base_docker_of_line_plain | reflexivity].
  - intros text Ht Hnone. now rewrite Ht, (find_none _ _ Hnone).
  - intros text before indent image after Ht Hlines Hbefore Hplain.
    rewrite Ht, Hlines.
    rewrite (find_after _ before _ after Hbefore) by apply contains_app.
    f_equal. unfold base_docker_of_line.
    unfold plain_image in Hplain.
    apply andb_true_iff in Hplain as [Hplain H4].
    apply andb_true_iff in Hplain as [Hplain H3].
    apply andb_true_iff in Hplain as [H1 H2].
    apply negb_true_iff in H1, H2, H3, H4.
    rewrite <- (string_app_assoc indent base_docker_marker).
    change ("=" +:+ image +:+ newline) with (String "="%char (image +:+ newline)).
    rewrite last_split_on_app.
    assert (Hn : has_char "="%char (image +:+ newline) = false).
    { clear - H1. induction image as [|c image IH]; simpl in *; [reflexivity|].
      apply orb_false_iff in H1 as [Ha Hb]. now rewrite Ha, (IH Hb). }
    rewrite (split_on_without_sep _ _ Hn). simpl List.last.
    unfold newline. fold lf. rewrite (remove_char_trailing _ _ H2).
    now apply strip_fixed.
Qed.

(** ** Render nodes *)



(** ** Docker arguments *)

Lemma string_app_nil_r (s : string) : s +:+ EmptyString = s.
Proof.
  induction s as [|c s IH]; [reflexivity|].
  change (String c (s +:+ EmptyString) = String c s). now rewrite IH.
Qed.

Lemma env_fold_acc items acc :
  fold_left (fun env_args kv => env_args +:+ env_fragment kv) items acc
  = acc +:+ fold_left (fun env_args kv => env_args +:+ env_fragment kv) items EmptyString.
Proof.
  revert acc. induction items as [|kv items IH]; intros acc; simpl.
  - now rewrite string_app_nil_r.
  - rewrite IH. rewrite (IH (EmptyString +:+ env_fragment kv)).
    change (EmptyString +:+ env_fragment kv) with (env_fragment kv).
    apply string_app_assoc.
Qed.

Lemma env_args_fold items :
  get_env_docker_args (Some items)
  = fold_left (fun env_args kv => env_args +:+ env_fragment kv) items EmptyString.
Proof. unfold get_env_docker_args. destruct items; reflexivity. Qed.

(** X12: [get_env_docker_args] treats a missing dict like an empty one
    and returns the empty string for both, and for nothing else.  The
    arguments of a dict are those of its first entries followed by those
    of the rest, so every variable gives its own [--env key=value] and
    the order of the dict is kept. *)
Theorem env_docker_args_spec (a b : list (string * scalar)) (kv : string * scalar) :
  get_env_docker_args None = EmptyString
  /\ (get_env_docker_args (Some a) = EmptyString <-> a = [])
  /\ get_env_docker_args (Some [kv]) = env_fragment kv
  /\ get_env_docker_args (Some (a ++ b))
     = get_env_docker_args (Some a) +:+ get_env_docker_args (Some b).
Proof.
  split; [reflexivity|]. split; [|split].
  - split; [|now intros ->].
    destruct a as [|x a]; [reflexivity|]. rewrite env_args_fold. simpl.
    rewrite env_fold_acc. discriminate.
  - reflexivity.
  - rewrite !env_args_fold, fold_left_app. apply env_fold_acc.
Qed.

Lemma add_mounts_acc mounts acc :
  add_mounts acc mounts
  = try rest <- add_mounts EmptyString mounts in Ok (acc +:+ rest).
Proof.
  revert acc. induction mounts as [|m mounts IH]; intros acc; simpl.
  - now rewrite string_app_nil_r.
  - destruct (mount_fragment m) as [fragment|e]; simpl; [|reflexivity].
    rewrite IH. rewrite (IH (EmptyString +:+ fragment)).
    change (EmptyString +:+ fragment) with fragment.
    destruct (add_mounts EmptyString mounts) as [rest|e]; simpl; [|reflexivity].
    now rewrite string_app_assoc.
Qed.

Lemma mount_args_fold mounts :
  get_mount_docker_args (Some mounts) = add_mounts EmptyString mounts.
Proof. unfold get_mount_docker_args. destruct mounts; reflexivity. Qed.

(** X13: [get_mount_docker_args] returns the empty string for a missing
    or empty list.  A mount is read-write exactly when its dict has a
    read_write entry equal to True (the int 1 counts, the string "True"
    does not), and read-only in every other case.  The arguments of a
    list are those of its mounts one after the other.  The first mount
    that lacks host_path raises a KeyError for it, even when it lacks
    container_path too, and one that has host_path but lacks
    container_path raises a KeyError for that. *)
Theorem mount_docker_args_spec
  (before after : list (list (string * scalar))) (m : list (string * scalar))
  (args : string) :
  get_mount_docker_args (Some before) = Ok args ->
  get_mount_docker_args None = Ok EmptyString
  /\ get_mount_docker_args (Some []) = Ok EmptyString
  /\ (mount_mode m = ":rw "
      <-> exists rw, lookup_key "read_write" m = Some rw /\ equals_True rw = true)
  /\ (mount_mode m = ":ro "
      <-> ~ exists rw, lookup_key "read_write" m = Some rw /\ equals_True rw = true)
  /\ equals_True (SInt 1) = true
  /\ equals_True (SStr "True") = false
  /\ (forall host_path container_path,
        lookup_key "host_path" m = Some host_path ->
        lookup_key "container_path" m = Some container_path ->
        get_mount_docker_args (Some (before ++ m :: after))
        = try rest <- get_mount_docker_args (Some after) in
          Ok (args +:+ "-v " +:+ py_str host_path +:+ ":" +:+ py_str container_path
              +:+ mount_mode m +:+ rest))
  /\ (lookup_key "host_path" m = None ->
      get_mount_docker_args (Some (before ++ m :: after)) = Raise (KeyError ["host_path"]))
  /\ (forall host_path,
        lookup_key "host_path" m = Some host_path ->
        lookup_key "container_path" m = None ->
        get_mount_docker_args (Some (before ++ m :: after))
        = Raise (KeyError ["container_path"])).
Proof.
  intros Hbefore. rewrite mount_args_fold in Hbefore.
  assert (Hsplit : forall l,
            add_mounts EmptyString (before ++ l) = add_mounts args l).
  { intros l. clear -Hbefore. revert args Hbefore.
    generalize EmptyString as acc.
    induction before as [|x before IH]; intros acc args H; simpl in *.
    - now inversion H.
    - destruct (mount_fragment x) as [fragment|e]; simpl in *; [|discriminate].
      now apply IH. }
  split; [reflexivity|]. split; [reflexivity|]. split.
  { unfold mount_mode. destruct (lookup_key "read_write" m) as [rw|].
    - destruct (equals_True rw) eqn:E.
      + split; [eauto | reflexivity].
      + split; [discriminate|]. intros (rw' & H & H'). inversion H. congruence.
    - split; [discriminate|]. intros (rw' & H & _). discriminate. }
  split.
  { unfold mount_mode. destruct (lookup_key "read_write" m) as [rw|].
    - destruct (equals_True rw) eqn:E.
      + split; [discriminate|]. intros H. exfalso. apply H. eauto.
      + split; [|reflexivity]. intros _ (rw' & H & H'). inversion H. congruence.
    - split; [|reflexivity]. intros _ (rw' & H & _). discriminate. }
  split; [reflexivity|]. split; [reflexivity|]. split; [|split].
  - intros h c Hh Hc. rewrite !mount_args_fold, Hsplit. simpl.
    unfold mount_fragment. rewrite Hh, Hc. simpl. rewrite add_mounts_acc.
    destruct (add_mounts EmptyString after) as [rest|e]; simpl; [|reflexivity].
    f_equal. rewrite !string_app_assoc. reflexivity.
  - intros Hh. rewrite mount_args_fold, Hsplit. simpl.
    unfold mount_fragment. now rewrite Hh.
  - intros h Hh Hc. rewrite mount_args_fold, Hsplit. simpl.
    unfold mount_fragment. now rewrite Hh, Hc.
Qed.

(** ** update_dict *)

















(** ** Run details as artifacts *)

Lemma run_dict_of_pairs r b :
  dict_of_pairs (RunDetails.output_dict r b) = RunDetails.output_dict r b.
Proof. destruct r, b; reflexivity. Qed.

Lemma run_flatten_tags r b :
  flatten_tags (RunDetails.output_dict r b)
  = Ok (dict_set "tags" (JAtom (flat_tags (RunDetails.tags r)))
          (RunDetails.output_dict r b)).
Proof. destruct r as [? ? [a|items]], b; reflexivity. Qed.

Lemma run_frame_ok r b :
  RunDetails.fits r = true ->
  frame_ok (dict_set "tags" (JAtom (flat_tags (RunDetails.tags r)))
              (RunDetails.output_dict r b)) = true.
Proof.
  destruct r, b; unfold RunDetails.fits, frame_ok; simpl;
    rewrite ?andb_true_iff; tauto.
Qed.

Lemma run_keys_complete r :
  Permutation (keys (RunDetails.output_dict r true) ++ result_keys) report_columns.
Proof.
  destruct r. apply NoDup_Permutation.
  - simpl.
    repeat (apply NoDup_cons_2;
            [rewrite list_elem_of_In; simpl; intuition discriminate|]).
    apply NoDup_nil_2.
  - unfold report_columns.
    repeat (apply NoDup_cons_2;
            [rewrite list_elem_of_In; simpl; intuition discriminate|]).
    apply NoDup_nil_2.
  - intros c. rewrite !list_elem_of_In. simpl. tauto.
Qed.

Section RunReports.

Context `{decoders : Decoders}.

Variable json_dump : dict -> string.

(** X15: a run written by [generate_json] and handed to [update_perf_csv]
    as the single result, when there is no report yet.  The tags key is
    always there, so the call succeeds whenever the JSON text reads back
    as the dict written and the attributes fit a row.  The report gets
    the 20-column header, unchanged, and one line with every attribute
    under the column of its name, although the attributes come in another
    order (model before pipeline); the side file keeps the order of the
    attributes. *)
Theorem generate_json_single_result (r : RunDetails.t)
  (json_name perf_csv : string) (st : fs) :
  json_name <> EmptyString ->
  json_name <> perf_csv ->
  st !! perf_csv = None ->
  parse_json (json_dump (RunDetails.output_dict r false))
  = Some (RunDetails.output_dict r false) ->
  RunDetails.fits r = true ->
  let cell v := csv_cell (cell_total v) in
  let tags_field := csv_cell (flat_tags (RunDetails.tags r)) in
  io_bind (RunDetails.generate_json json_dump r json_name false)
    (fun _ => update_perf_csv (Some json_name) None None None perf_csv None None) st
  = (Ok tt,
     <[perf_csv :=
         csv_text
           [ report_columns;
             [ cell (RunDetails.pipeline r); cell (RunDetails.model r); tags_field;
               cell (RunDetails.args r); cell (RunDetails.docker_file r);
               cell (RunDetails.base_docker r); cell (RunDetails.docker_sha r);
               cell (RunDetails.docker_image r); cell (RunDetails.machine_name r);
               cell (RunDetails.host_os r); cell (RunDetails.gpu_architecture r);
               cell (RunDetails.n_gpus r); cell (RunDetails.training_precision r);
               cell (RunDetails.performance r); cell (RunDetails.metric r);
               cell (RunDetails.status r); cell (RunDetails.build_duration r);
               cell (RunDetails.test_duration r); cell (RunDetails.git_commit r);
               cell (RunDetails.relative_change r) ] ]]>
       (<[perf_entry_csv :=
            csv_text
              [ keys (RunDetails.vars r);
                [ cell (RunDetails.model r); cell (RunDetails.pipeline r); tags_field;
                  cell (RunDetails.args r); cell (RunDetails.docker_file r);
                  cell (RunDetails.base_docker r); cell (RunDetails.docker_sha r);
                  cell (RunDetails.docker_image r); cell (RunDetails.machine_name r);
                  cell (RunDetails.host_os r); cell (RunDetails.gpu_architecture r);
                  cell (RunDetails.n_gpus r); cell (RunDetails.training_precision r);
                  cell (RunDetails.performance r); cell (RunDetails.metric r);
                  cell (RunDetails.status r); cell (RunDetails.build_duration r);
                  cell (RunDetails.test_duration r); cell (RunDetails.git_commit r);
                  cell (RunDetails.relative_change r) ] ]]>
          (<[json_name := json_dump (RunDetails.output_dict r false)]> st))).
Proof.
  intros Hname Hother Hnone Hjson Hfits cell tags_field.
  destruct json_name as [|c name]; [congruence|].
  unfold io_bind at 1, RunDetails.generate_json.
  set (written := <[String c name := _]> st).
  assert (Hread : written !! String c name
                  = Some (json_dump (RunDetails.output_dict r false)))
    by apply lookup_insert_eq.
  assert (Hnone' : written !! perf_csv = None)
    by (unfold written; now rewrite lookup_insert_ne).
  unfold update_perf_csv, io_bind at 1, load_report. rewrite Hnone'.
  simpl supplied. cbv iota beta. unfold io_bind.
  rewrite (handle_single_result_ok _ _ _ _ _ _ Hread Hjson
             (eq_trans (f_equal flatten_tags (run_dict_of_pairs r false))
                (run_flatten_tags r false))
             (run_frame_ok r false Hfits)).
  subst cell tags_field. destruct r as [? ? [a|items]]; reflexivity.
Qed.

(** X16: the keys of the common information [generate_json] writes for
    multiple results, together with the four keys the loop fills in, are
    the columns of the report.  So when the JSON text reads back as the
    dict written and the attributes fit a row, a multiple-results file
    that passes the header checks and has at least one record is
    aggregated without a missing column: with no report yet, the report
    gets the 20-column header and one line per record, holding the
    prefixed model, the record's performance and metric, the status drawn
    from the performance, and every other attribute of the run under its
    column. *)
Theorem generate_json_common_info (r : RunDetails.t)
  (common_info multiple_results perf_csv prefix text : string)
  (mdf : DataFrame) (st : fs) :
  common_info <> EmptyString ->
  multiple_results <> EmptyString ->
  common_info <> perf_csv ->
  common_info <> multiple_results ->
  st !! perf_csv = None ->
  st !! multiple_results = Some text ->
  parse_csv text = Some mdf ->
  check_header (map strip (columns mdf)) = Ok tt ->
  rectangular mdf ->
  rows mdf <> [] ->
  parse_json (json_dump (RunDetails.output_dict r true))
  = Some (RunDetails.output_dict r true) ->
  RunDetails.fits r = true ->
  let cell v := csv_cell (cell_total v) in
  let field record k :=
    default SNaN (row_lookup (map strip (columns mdf)) record k) in
  let line record :=
    [ cell (RunDetails.pipeline r);
      prefix +:+ "_" +:+ py_str (field record "model");
      csv_cell (flat_tags (RunDetails.tags r));
      cell (RunDetails.args r); cell (RunDetails.docker_file r);
      cell (RunDetails.base_docker r); cell (RunDetails.docker_sha r);
      cell (RunDetails.docker_image r); cell (RunDetails.machine_name r);
      cell (RunDetails.host_os r); cell (RunDetails.gpu_architecture r);
      cell (RunDetails.n_gpus r); cell (RunDetails.training_precision r);
      csv_cell (field record "performance"); csv_cell (field record "metric");
      status_of (field record "performance");
      cell (RunDetails.build_duration r); cell (RunDetails.test_duration r);
      cell (RunDetails.git_commit r); cell (RunDetails.relative_change r) ] in
  let report := csv_text (report_columns :: map line (rows mdf)) in
  Permutation (keys (RunDetails.output_dict r true) ++ result_keys) report_columns
  /\ io_bind (RunDetails.generate_json json_dump r common_info true)
    (fun _ => update_perf_csv None None None (Some multiple_results) perf_csv
                (Some prefix) (Some common_info)) st
  = (Ok tt,
     <[perf_csv := report]>
       (<[perf_entry_csv := report]>
          (<[common_info := json_dump (RunDetails.output_dict r true)]> st))).
Proof.
  intros Hname Hmr Hother Hdiff Hnone Hfile Hcsv Hhdr Hrect Hrows Hjson Hfits
    cell field line report.
  split; [apply run_keys_complete|].
  destruct common_info as [|c name]; [congruence|].
  destruct multiple_results as [|c' name']; [congruence|].
  unfold io_bind at 1, RunDetails.generate_json.
  set (written := <[String c name := _]> st).
  assert (Hread : written !! String c name
                  = Some (json_dump (RunDetails.output_dict r true)))
    by apply lookup_insert_eq.
  assert (Hnone' : written !! perf_csv = None)
    by (unfold written; now rewrite lookup_insert_ne).
  assert (Hfile' : written !! String c' name' = Some text)
    by (unfold written; now rewrite lookup_insert_ne).
  unfold update_perf_csv, io_bind at 1, load_report. rewrite Hnone'.
  simpl supplied. cbv iota beta. unfold io_bind.
  rewrite (handle_multiple_results_ok (mkDF report_columns []) _ _ prefix _ _ mdf _ _ _
             Hfile' Hcsv Hhdr Hrect Hrows Hread Hjson
             (eq_trans (f_equal flatten_tags (run_dict_of_pairs r true))
                (run_flatten_tags r true))
             (run_frame_ok r true Hfits)).
  - unfold to_csv, to_csv_fields.
    assert (Hlines :
      map (map csv_cell)
        (map (new_row prefix (map strip (columns mdf))
                (dict_set "tags" (JAtom (flat_tags (RunDetails.tags r)))
                   (RunDetails.output_dict r true)) report_columns) (rows mdf))
      = map line (rows mdf)).
    { rewrite map_map. apply map_ext. intros record. subst line cell field.
      destruct r as [? ? [a|items]]; reflexivity. }
    subst report. rewrite <- Hlines. reflexivity.
  - intros col Hcol. destruct r. simpl in Hcol. simpl.
    repeat (destruct Hcol as [<-|Hcol]; [tauto|]). contradiction.
Qed.

End RunReports.

(** ** GPU architecture *)

Lemma arch_at_shape s a :
  arch_at s = Some a -> exists post, s = a +:+ post /\ arch_at a = Some a.
Proof.
  destruct s as [|c [|d1 [|d2 [|d3 post]]]]; simpl; try discriminate.
  destruct (is_AHV c && is_digit d1 && is_digit d2 && is_digit d3) eqn:E;
    [|discriminate].
  intros H. inversion H. subst a. exists post. split; [reflexivity|].
  simpl. now rewrite E.
Qed.

Lemma arch_at_app a post : arch_at a = Some a -> arch_at (a +:+ post) = Some a.
Proof.
  destruct a as [|c [|d1 [|d2 [|d3 rest]]]]; simpl; try discriminate.
  destruct (is_AHV c && is_digit d1 && is_digit d2 && is_digit d3) eqn:E;
    [|discriminate].
  intros H. inversion H. reflexivity.
Qed.

Lemma search_arch_leftmost s a :
  search_arch s = Some a ->
  exists pre post,
    s = pre +:+ a +:+ post /\ arch_at a = Some a
    /\ forall p1 c p2, pre = p1 +:+ String c p2 ->
         arch_at (String c p2 +:+ a +:+ post) = None.
Proof.
  induction s as [|c s IH].
  - simpl. discriminate.
  - change (search_arch (String c s))
      with (match arch_at (String c s) with
            | Some b => Some b
            | None => search_arch s
            end).
    destruct (arch_at (String c s)) as [b|] eqn:E.
    + intros H. inversion H. subst b. clear H.
      destruct (arch_at_shape _ _ E) as (post & Hs & Ha).
      exists EmptyString, post. split; [exact Hs|]. split; [exact Ha|].
      intros [|? ?] ? ?; discriminate.
    + intros H. destruct (IH H) as (pre & post & -> & Ha & Hleft).
      exists (String c pre), post. split; [reflexivity|]. split; [exact Ha|].
      intros [|c1 p1] c2 p2 Hp.
      * change (String c pre = String c2 p2) in Hp. inversion Hp. subst.
        exact E.
      * change (String c pre = String c1 (p1 +:+ String c2 p2)) in Hp.
        inversion Hp. subst. now apply (Hleft p1 c2 p2).
Qed.

Lemma search_arch_found pre a post :
  arch_at a = Some a ->
  (forall p1 c p2, pre = p1 +:+ String c p2 ->
     arch_at (String c p2 +:+ a +:+ post) = None) ->
  search_arch (pre +:+ a +:+ post) = Some a.
Proof.
  intros Ha. induction pre as [|c pre IH]; intros Hleft.
  - change (search_arch (a +:+ post) = Some a).
    destruct a as [|c a]; [discriminate|].
    change (match arch_at (String c a +:+ post) with
            | Some b => Some b
            | None => search_arch (a +:+ post)
            end = Some (String c a)).
    now rewrite (arch_at_app _ post Ha).
  - change (match arch_at (String c pre +:+ a +:+ post) with
            | Some b => Some b
            | None => search_arch (pre +:+ a +:+ post)
            end = Some a).
    rewrite (Hleft EmptyString c pre eq_refl). apply IH.
    intros p1 c' p2 ->. now apply (Hleft (String c p1) c' p2).
Qed.

Lemma search_arch_none s :
  search_arch s = None <-> forall pre rest, s = pre +:+ rest -> arch_at rest = None.
Proof.
  induction s as [|c s IH].
  - split; [|reflexivity]. intros _ [|? ?] rest H; [|discriminate].
    change (EmptyString = rest) in H. now subst.
  - change (search_arch (String c s))
      with (match arch_at (String c s) with
            | Some b => Some b
            | None => search_arch s
            end).
    split.
    + destruct (arch_at (String c s)) eqn:E; [discriminate|].
      intros H [|c' pre] rest Hs.
      * change (String c s = rest) in Hs. now subst.
      * change (String c s = String c' (pre +:+ rest)) in Hs. inversion Hs.
        now apply (proj1 IH H pre).
    + intros H. rewrite (H EmptyString (String c s) eq_refl).
      apply IH. intros pre rest ->. now apply (H (String c pre)).
Qed.

(** X17: [get_system_gpu_arch].  When no vendor is found the process
    exits with 1, and the unsupported-vendor exception is never raised.
    On an AMD machine the answer is the stripped output of the grep.  On an
    NVIDIA machine the answer is the leftmost place in the stripped GPU
    name where one of A, H, V is followed by three digits, and exactly
    those four characters, whatever follows (a fourth digit is cut off);
    when there is no such place, the exception carries the name. *)
Theorem gpu_arch_spec (nvidia_smi rocm_smi : Env.probe) (out info : string) :
  let run := get_system_gpu_arch nvidia_smi rocm_smi (Some out) (Some info) in
  (forall f, Env.get_gpu_vendor nvidia_smi rocm_smi = Env.Fail f ->
     run = Env.Fail (Env.SystemExit 1))
  /\ (forall v, run <> Env.Fail (Env.Exception (unsupported_vendor_msg v)))
  /\ (Env.get_gpu_vendor nvidia_smi rocm_smi = Env.Return "AMD" ->
      run = Env.Return (strip info))
  /\ (Env.get_gpu_vendor nvidia_smi rocm_smi = Env.Return "NVIDIA" ->
      (forall a,
         run = Env.Return a
         <-> exists pre post,
               strip out = pre +:+ a +:+ post /\ arch_at a = Some a
               /\ forall p1 c p2, pre = p1 +:+ String c p2 ->
                    arch_at (String c p2 +:+ a +:+ post) = None)
      /\ (forall a, run = Env.Return a -> String.length a = 4)
      /\ ((forall pre rest, strip out = pre +:+ rest -> arch_at rest = None)
          <-> run = Env.Fail (Env.Exception (no_arch_msg (strip out))))).
Proof.
  intros run. subst run. unfold get_system_gpu_arch, Env.vendor_or_exit.
  split; [intros f ->; reflexivity|]. split.
  { intros v. destruct nvidia_smi, rocm_smi; simpl; try discriminate;
      destruct (search_arch (strip out)); discriminate. }
  split; [intros ->; reflexivity|]. intros ->. simpl.
  assert (Hiff : forall a,
    match search_arch (strip out) with
    | Some gpu_arch => Env.Return gpu_arch
    | None => Env.Fail (Env.Exception (no_arch_msg (strip out)))
    end = Env.Return a
    <-> exists pre post,
          strip out = pre +:+ a +:+ post /\ arch_at a = Some a
          /\ forall p1 c p2, pre = p1 +:+ String c p2 ->
               arch_at (String c p2 +:+ a +:+ post) = None).
  { intros a. split.
    - destruct (search_arch (strip out)) as [b|] eqn:E; [|discriminate].
      intros H. inversion H. subst b. now apply search_arch_leftmost.
    - intros (pre & post & Hs & Ha & Hleft). rewrite Hs.
      now rewrite (search_arch_found pre a post Ha Hleft). }
  split; [exact Hiff|]. split.
  - intros a Ha. apply Hiff in Ha as (_ & _ & _ & Ha & _).
    destruct a as [|c [|d1 [|d2 [|d3 rest]]]]; simpl in Ha; try discriminate.
    destruct (is_AHV c && is_digit d1 && is_digit d2 && is_digit d3);
      [|discriminate].
    inversion Ha. reflexivity.
  - rewrite <- search_arch_none.
    destruct (search_arch (strip out)); split; congruence.
Qed.

(** * Concrete runs

    The theorems above applied to the sample artifacts, with the sample
    decoders and csv writer, and the runs on which the spec and the code
    part. *)

#[local] Existing Instance sample_decoders.

(** Closed equations about the samples are settled by evaluation. *)
Ltac run :=
  lazymatch goal with
  | |- _ = ?b => vm_cast_no_check (@eq_refl _ b)
  end.

Lemma sample_valid :
  valid_artifact sample_fs (mkDF report_columns []) "multiple_results.csv"
    "common_info_full.json" multiple_results_frame sample_common.
Proof.
  split.
  - split; [exists multiple_results_text; split; reflexivity|].
    split; [reflexivity|]. split.
    { unfold rectangular. simpl. repeat constructor. }
    split; [discriminate|]. split; [|reflexivity].
    exists common_info_full_text, common_info_full_members.
    repeat split; reflexivity.
  - intros c Hc.
    apply (covered_columns report_columns (keys sample_common)); [reflexivity | exact Hc].
Qed.

(** ** Header validation (C1) *)

(** C1 as stated fails: a file with the columns model, performance,
    metric and extra is refused with the message for a wrong number of
    columns, which names no column that is missing or unexpected: the only
    such column is extra. *)
Lemma bad_header_unnamed_column :
  update_perf_csv None None None (Some "four_columns.csv") "perf.csv"
    (Some "suite1") (Some "common_info.json") sample_fs
  = (Raise (RuntimeError three_columns_msg), sample_fs)
  /\ offending (map strip (columns four_columns_frame)) = ["extra"]
  /\ names_offending (map strip (columns four_columns_frame)) three_columns_msg = false.
Proof. repeat split; run. Qed.

(** The file with the columns model, perf and metric is refused with the
    message that names performance, and no file changes. *)
Lemma bad_header_raises_witness :
  update_perf_csv None None None (Some "perf_column.csv") "perf.csv"
    (Some "suite1") (Some "common_info.json") sample_fs
  = (Raise (RuntimeError (missing_column_msg "performance")), sample_fs).
Proof.
  assert (Hperm : ~ Permutation (map strip (columns perf_column_frame)) headings).
  { intros Hp. apply Permutation_sym in Hp.
    apply (Permutation_in "performance") in Hp; [|simpl; tauto].
    vm_compute in Hp. intuition discriminate. }
  destruct (bad_header_raises None None None (Some "perf_column.csv") "perf.csv"
              (Some "suite1") (Some "common_info.json") sample_fs
              "perf_column.csv" perf_column_text perf_column_frame
              ltac:(run) ltac:(run) ltac:(run) Hperm) as [_ Hrun].
  destruct (Hrun (mkDF report_columns []) ltac:(run)) as [_ H3].
  destruct (H3 ltac:(run)) as (heading & Hfirst & _ & _ & Hcall).
  vm_compute in Hfirst. inversion Hfirst. subst heading. exact Hcall.
Defined.

(** ** The multiple-results path (C2, C3, C5) *)

(** The scenario's file against the completed common information: two
    rows are appended, the first for suite1_A. *)
Lemma multiple_results_rows_and_models_witness :
  exists added st',
    handle_multiple_results (mkDF report_columns []) "multiple_results.csv"
      (Some "common_info_full.json") (Some "suite1") sample_fs
    = (Ok (mkDF report_columns ([] ++ added)), st')
    /\ List.length added = 2%nat
    /\ exists row,
         added !! 0%nat = Some row
         /\ row_lookup report_columns row "model" = Some (SStr "suite1_A").
Proof.
  destruct (multiple_results_rows_and_models sample_fs (mkDF report_columns [])
              "multiple_results.csv" "common_info_full.json" "suite1"
              multiple_results_frame sample_common sample_valid)
    as (added & st' & Hrun & Hlen & Hrows).
  exists added, st'. split; [exact Hrun|]. split; [exact Hlen|].
  destruct (Hrows 0%nat [SStr "A"; SFloat "10.0"; SStr "tok/s"] ltac:(run)) as (original & row & Horig & Hrow & Hmodel).
  exists row. split; [exact Hrow|].
  vm_compute in Horig. inversion Horig. subst original.
  apply Hmodel. simpl. tauto.
Defined.

(** The second record of the scenario has no performance: its row is a
    FAILURE. *)
Lemma multiple_results_status_witness :
  exists added st',
    handle_multiple_results (mkDF report_columns []) "multiple_results.csv"
      (Some "common_info_full.json") (Some "suite1") sample_fs
    = (Ok (mkDF report_columns ([] ++ added)), st')
    /\ exists row,
         added !! 1%nat = Some row
         /\ row_lookup report_columns row "status" = Some (SStr "FAILURE").
Proof.
  destruct (multiple_results_status sample_fs (mkDF report_columns [])
              "multiple_results.csv" "common_info_full.json" "suite1"
              multiple_results_frame sample_common sample_valid)
    as (_ & _ & added & st' & Hrun & Hrows).
  exists added, st'. split; [exact Hrun|].
  destruct (Hrows 1%nat [SStr "B"; SNaN; SStr "tok/s"] ltac:(run)) as (performance & row & Hperf & Hrow & Hstatus).
  exists row. split; [exact Hrow|].
  vm_compute in Hperf. inversion Hperf. subst performance.
  apply Hstatus. simpl. tauto.
Defined.

(** C5 as stated fails: with the scenario's own common information, which
    holds pipeline and tags only, the rows built lack fourteen columns of
    the report and the selection of the report's columns raises a
    KeyError; nothing is written. *)
Lemma multiple_results_scenario_raises :
  sample_fs !! "perf.csv" = None
  /\ parse_csv multiple_results_text = Some multiple_results_frame
  /\ parse_json common_info_text = Some common_info_members
  /\ update_perf_csv None None None (Some "multiple_results.csv") "perf.csv"
       (Some "suite1") (Some "common_info.json") sample_fs
     = (Raise (KeyError other_columns), sample_fs).
Proof. repeat split; run. Qed.

(** With the completed common information the scenario goes through. *)
Lemma multiple_results_reindexed_witness :
  update_perf_csv None None None (Some "multiple_results.csv") "perf.csv"
    (Some "suite1") (Some "common_info.json") completed_fs
  = (Ok tt,
     <["perf.csv" := csv_text [report_columns; suite1_A_line; suite1_B_line]]>
       (<[perf_entry_csv :=
            csv_text [report_columns; suite1_A_line; suite1_B_line]]> completed_fs)).
Proof.
  exact (proj1 (proj2 (proj2 multiple_results_reindexed) None None None "perf.csv"
                  completed_fs multiple_results_text common_info_full_text
                  ltac:(run) ltac:(run) ltac:(run) ltac:(run))
           ltac:(run)).
Defined.

(** ** The single-result path (C4, C6, C10) *)

(** C4 as stated fails: the scenario's JSON has no tags key, so
    [flatten_tags] raises a KeyError and no report is written. *)
Lemma single_result_without_tags_raises :
  sample_fs !! "perf.csv" = None
  /\ parse_json r_json_text = Some r_json_members
  /\ update_perf_csv (Some "r.json") None None None "perf.csv" None None sample_fs
     = (Raise (KeyError ["tags"]), sample_fs).
Proof. repeat split; run. Qed.

(** With the tags a and b in the JSON the scenario goes through. *)
Lemma single_result_scenario_witness :
  update_perf_csv (Some "r.json") None None None "perf.csv" None None tagged_fs
  = (Ok tt,
     <["perf.csv" := csv_text [report_columns; resnet_line "a,b"]]>
       (<[perf_entry_csv :=
            csv_text [ ["model"; "performance"; "metric"; "status"; "tags"];
                       ["resnet"; "123.4"; "images/sec"; "SUCCESS"; "a,b"] ]]>
          tagged_fs)).
Proof.
  exact (proj2 (single_result_scenario None None None "perf.csv" None None
                  tagged_fs r_tags_text ltac:(run) ltac:(run) ltac:(run))
           (JList [SStr "a"; SStr "b"]) ltac:(run)).
Defined.

(** C6 as stated fails: a single result with a key outside the schema
    makes the call succeed and write a report of 21 columns. *)
Lemma unknown_key_widens_report :
  fst (update_perf_csv (Some "r_extra.json") None None None "perf.csv" None None
         sample_fs) = Ok tt
  /\ snd (update_perf_csv (Some "r_extra.json") None None None "perf.csv" None None
            sample_fs) !! "perf.csv"
     = Some (csv_text [report_columns ++ ["extra"]; extra_line])
  /\ List.length (report_columns ++ ["extra"]) = 21%nat.
Proof. repeat split; run. Qed.

(** The tagged result, whose keys are all columns of the report, leaves
    the 20-column header in place. *)
Lemma report_schema_after_call_witness :
  exists updated,
    snd (update_perf_csv (Some "r.json") None None None "perf.csv" None None tagged_fs)
      !! "perf.csv" = Some (csv_text (to_csv_fields updated))
    /\ Forall (fun line => List.length line = List.length (columns updated))
         (to_csv_fields updated)
    /\ columns updated = report_columns.
Proof.
  assert (Hcall :
    update_perf_csv (Some "r.json") None None None "perf.csv" None None tagged_fs
    = (Ok tt,
       snd (update_perf_csv (Some "r.json") None None None "perf.csv" None None tagged_fs)))
    by run.
  assert (Hrect : rectangular (mkDF report_columns [])) by constructor.
  destruct (report_schema_after_call (Some "r.json") None None None "perf.csv" None None
              tagged_fs _ (mkDF report_columns []) ltac:(run) Hrect Hcall)
    as (_ & _ & updated & Hput & Hlines & _ & Hsingle).
  exists updated. split; [exact Hput|]. split; [exact Hlines|].
  destruct (Hsingle ltac:(run)) as (artifact & text & members & d & Hwhich & Hp & Hj & Hf & _ & Hsame & _).
  apply Hsame.
  destruct Hwhich as [Hs|[Hs _]]; [|discriminate]. inversion Hs. subst artifact.
  vm_compute in Hp. inversion Hp. subst text.
  vm_compute in Hj. inversion Hj. subst members.
  vm_compute in Hf. inversion Hf. subst d.
  intros k Hk. vm_compute in Hk. simpl. intuition (subst; auto 25).
Defined.

(** On the tagged result the exception path does what the single path
    does and keeps the SUCCESS of the artifact. *)
Lemma handle_exception_result_as_single_witness :
  handle_exception_result (mkDF report_columns []) "r.json" tagged_fs
  = handle_single_result (mkDF report_columns []) "r.json" tagged_fs
  /\ exists row,
       fst (handle_exception_result (mkDF report_columns []) "r.json" tagged_fs)
       = Ok (mkDF report_columns [row])
       /\ row_lookup report_columns row "status" = Some (SStr "SUCCESS").
Proof.
  destruct (handle_exception_result_as_single (mkDF report_columns []) "r.json" tagged_fs)
    as [Heq Hrun].
  split; [exact Heq|].
  destruct (Hrun r_tags_text r_tags_members
              (r_json_members ++ [("tags", JAtom (SStr "a,b"))])
              ltac:(run) ltac:(run) ltac:(run) ltac:(run)) as (old & Hlen & Hres & Hstatus).
  destruct old; [|discriminate]. eexists. split.
  - rewrite Hres. reflexivity.
  - exact (Hstatus (SStr "SUCCESS") ltac:(run)).
Defined.

(** ** Dispatch (C7) *)

(** C7 as stated fails: with a report that exists and is empty, which
    the CSV reader refuses, a call that supplies [failed_result] alone
    raises the reader's error, not the missing-argument error. *)
Lemma failed_result_alone_unreadable_report :
  unreadable_report_fs !! "perf.csv" = Some EmptyString
  /\ parse_csv EmptyString = None
  /\ update_perf_csv None None (Some "failed.json") None "perf.csv" None None
       unreadable_report_fs
     = (Raise (DecodeError "perf.csv"), unreadable_report_fs).
Proof. repeat split; run. Qed.

(** With no report, a call that supplies [failed_result] alone raises the
    missing-argument error. *)
Lemma update_perf_csv_dispatch_witness :
  update_perf_csv None None (Some "failed.json") None "perf.csv" None None sample_fs
  = (Raise (RuntimeError no_result_msg), sample_fs).
Proof.
  exact (proj2 (proj2 (proj2 (proj2
           (proj2 (proj2
              (update_perf_csv_dispatch None None (Some "failed.json") None "perf.csv"
                 None None sample_fs))
              (mkDF report_columns []) ltac:(run)))))).
Defined.

(** ** Pure code (C8, C9) *)

(** A record whose tags are a string already is left as it is. *)
Lemma flatten_tags_idempotent_witness :
  flatten_tags [("model", JAtom (SStr "resnet")); ("tags", JAtom (SStr "a,b"))]
  = Ok [("model", JAtom (SStr "resnet")); ("tags", JAtom (SStr "a,b"))].
Proof.
  exact (proj1 (proj2 (flatten_tags_idempotent
                         [("model", JAtom (SStr "resnet")); ("tags", JAtom (SStr "a,b"))]))
           (SStr "a,b") eq_refl).
Defined.

(** A failing command run with [secret=True] ends in a TypeError. *)
Lemma Console_sh_nonzero_exit_witness :
  Console.sh "false" false (Console.SecretBool true) (Console.Exited EmptyString 1)
  = Raise TypeError.
Proof.
  assert (Hrc : 1%Z <> 0%Z) by discriminate.
  exact (proj2 (proj2 (proj2
           (Console_sh_nonzero_exit "false" EmptyString 1 (Console.SecretBool true) Hrc)))).
Defined.

(** ** Further properties

    The sample decoders extended with what the JSON writer makes of the
    sample run. *)

(** The scenario's result without tags raises, and the directory is as
    it was. *)
Lemma update_perf_csv_all_or_nothing_witness :
  snd (update_perf_csv (Some "r.json") None None None "perf.csv" None None sample_fs)
  = sample_fs.
Proof.
  assert (Hnd : forall perf_csv_df,
            load_report "perf.csv" sample_fs = (Ok perf_csv_df, sample_fs) ->
            NoDup (columns perf_csv_df)).
  { intros perf_csv_df Hload.
    assert (Hnone : load_report "perf.csv" sample_fs
                    = (Ok (mkDF report_columns []), sample_fs)) by run.
    assert (Hdf : perf_csv_df = mkDF report_columns []) by congruence.
    rewrite Hdf. unfold report_columns. simpl.
    repeat (apply NoDup_cons_2;
            [rewrite list_elem_of_In; simpl; intuition discriminate|]).
    apply NoDup_nil_2. }
  exact (update_perf_csv_all_or_nothing (Some "r.json") None None None "perf.csv"
           None None sample_fs
           (snd (update_perf_csv (Some "r.json") None None None "perf.csv" None None
                   sample_fs))
           (KeyError ["tags"]) Hnd ltac:(run)).
Defined.

(** The tagged result writes the report and the side file and leaves the
    multiple-results file alone. *)
Lemma update_perf_csv_footprint_witness :
  is_Some (snd (update_perf_csv (Some "r.json") None None None "perf.csv" None None
                  tagged_fs) !! "perf.csv")
  /\ snd (update_perf_csv (Some "r.json") None None None "perf.csv" None None
            tagged_fs) !! "multiple_results.csv"
     = tagged_fs !! "multiple_results.csv".
Proof.
  destruct (update_perf_csv_footprint (Some "r.json") None None None "perf.csv"
              None None tagged_fs
              (snd (update_perf_csv (Some "r.json") None None None "perf.csv" None
                      None tagged_fs))
              ltac:(run)) as (Hreport & _ & Hrest).
  split; [exact Hreport|]. apply Hrest; discriminate.
Defined.

(** A report of three columns and two rows keeps both rows when a result
    with other keys is added. *)
Lemma update_perf_csv_keeps_rows_witness :
  exists updated extra new,
    snd (update_perf_csv (Some "r.json") None None None "perf.csv" None None
           small_report_fs) !! "perf.csv"
    = Some (csv_text (to_csv_fields updated))
    /\ columns updated = ["model"; "performance"; "metric"] ++ extra
    /\ rows updated
       = map (padded (List.length extra))
           [ [SStr "A"; SFloat "10.0"; SStr "tok/s"]; [SStr "B"; SNaN; SStr "tok/s"] ]
         ++ new.
Proof.
  assert (Hnd : NoDup (columns multiple_results_frame)).
  { simpl.
    repeat (apply NoDup_cons_2;
            [rewrite list_elem_of_In; simpl; intuition discriminate|]).
    apply NoDup_nil_2. }
  assert (Hrect : rectangular multiple_results_frame)
    by (repeat constructor).
  exact (update_perf_csv_keeps_rows (Some "r.json") None None None "perf.csv"
           None None small_report_fs
           (snd (update_perf_csv (Some "r.json") None None None "perf.csv" None None
                   small_report_fs))
           multiple_results_frame ltac:(run) Hnd Hrect eq_refl ltac:(run)).
Defined.

(** The file with the header alone is refused, with no model name
    given. *)
Lemma multiple_results_without_records_witness :
  handle_multiple_results (decoders := run_decoders) (mkDF report_columns [])
    "header_only.csv" (Some "common_info.json") None run_fs
  = (Raise (KeyError report_columns), run_fs).
Proof.
  assert (Hcols : report_columns <> []) by discriminate.
  exact (multiple_results_without_records (decoders := run_decoders)
           (mkDF report_columns []) "header_only.csv" "common_info.json" None run_fs
           header_only_text common_info_text header_only_frame common_info_members
           (dict_set "tags" (JAtom (SStr "x,y")) (dict_of_pairs common_info_members))
           ltac:(run) ltac:(run) ltac:(run) eq_refl ltac:(run) ltac:(run) ltac:(run)
           Hcols).
Defined.

(** Two mounts, the second without a mode. *)
Lemma mount_docker_args_spec_witness :
  get_mount_docker_args (Some sample_mounts) = Ok "-v /a:/b:rw -v /c:/d:ro ".
Proof.
  destruct (mount_docker_args_spec
              [ [ ("host_path", SStr "/a"); ("container_path", SStr "/b");
                  ("read_write", SBool true) ] ]
              [] [ ("host_path", SStr "/c"); ("container_path", SStr "/d") ]
              "-v /a:/b:rw " eq_refl) as (_ & _ & _ & _ & _ & _ & Hnext & _).
  exact (Hnext (SStr "/c") (SStr "/d") eq_refl eq_refl).
Defined.


(** The sample run, written and aggregated as a single result. *)
Lemma generate_json_single_result_witness :
  snd (io_bind (RunDetails.generate_json sample_json_dump sample_run "run.json" false)
         (fun _ => update_perf_csv (decoders := run_decoders) (Some "run.json") None
                     None None "perf.csv" None None) sample_fs) !! "perf.csv"
  = Some (sample_csv_text [report_columns; sample_run_line]).
Proof.
  pose proof (generate_json_single_result (decoders := run_decoders) sample_json_dump
                sample_run "run.json" "perf.csv" sample_fs
                ltac:(discriminate) ltac:(discriminate) ltac:(run) ltac:(run)
                ltac:(run)) as Hrun.
  cbv zeta in Hrun. rewrite Hrun. simpl snd. rewrite lookup_insert_eq. reflexivity.
Defined.

(** The sample run as the common information of the scenario's two
    records. *)
Lemma generate_json_common_info_witness :
  snd (io_bind (RunDetails.generate_json sample_json_dump sample_run "common.json" true)
         (fun _ => update_perf_csv (decoders := run_decoders) None None None
                     (Some "multiple_results.csv") "perf.csv" (Some "suite1")
                     (Some "common.json")) sample_fs) !! "perf.csv"
  = Some (sample_csv_text (report_columns :: sample_run_lines)).
Proof.
  assert (Hrect : rectangular multiple_results_frame) by (repeat constructor).
  assert (Hrows : rows multiple_results_frame <> []) by discriminate.
  pose proof (generate_json_common_info (decoders := run_decoders) sample_json_dump
                sample_run "common.json" "multiple_results.csv" "perf.csv" "suite1"
                multiple_results_text multiple_results_frame sample_fs
                ltac:(discriminate) ltac:(discriminate) ltac:(discriminate)
                ltac:(discriminate) ltac:(run) ltac:(run) ltac:(run) ltac:(run)
                Hrect Hrows ltac:(run) ltac:(run)) as Hrun.
  cbv zeta in Hrun. destruct Hrun as [_ Hrun].
  rewrite Hrun. simpl snd. rewrite lookup_insert_eq. reflexivity.
Defined.
